(** * EduBot: the account / session / analytics store

    A shallow embedding of [database.py] (class [Database]) and of the
    registration and login decisions of [auth.py] (class [AuthManager]),
    with the properties of the store stated and proved over it.

    Modelling conventions.
    - A table is the list of its rows in rowid order.  Every table has an
      [INTEGER PRIMARY KEY AUTOINCREMENT] id and no row is ever deleted, so
      a table scan visits the rows in the order they were inserted and an
      [INSERT] appends at the end of the list.
    - [CURRENT_TIMESTAMP] is a clock reading handed to each call ([now]);
      timestamps are integers, ordered like the fixed-width text SQLite
      stores.  [uuid.uuid4()] and [bcrypt.gensalt()] are handed to the call
      as well ([uuid], [salt]): the environment picks them.
    - A Python [str] is a string of characters with code points below 256;
      SQLite compares TEXT exactly (BINARY collation), as [String.eqb] does.
    - Counters are SQLite INTEGERs, modelled as [Z]; the 64-bit range is
      not modelled (it takes 2^63 appends to leave it).
    - The schema declares FOREIGN KEY clauses, but no connection ever runs
      [PRAGMA foreign_keys = ON], and SQLite does not enforce foreign keys
      unless it is set: the clauses constrain nothing.  UNIQUE, NOT NULL and
      CHECK constraints are enforced.
    - A connection is a working copy of the store: statements run on the
      copy, [conn.commit()] publishes it, and a connection dropped before
      its commit leaves the store as it was. *)

From Stdlib Require Import ZArith List String Ascii Bool Lia Sorted Permutation.
Import ListNotations.

Local Open Scope string_scope.
Local Open Scope Z_scope.

(** ** Data model: the four relations of [init_database] *)

(** A clock reading: what [CURRENT_TIMESTAMP] stores. *)
Definition datetime := Z.

Module Users.
Record row := mk {
  user_id : string;
  username : string;
  email : string;
  password_hash : string;
  role : string;
  full_name : string;
  department : option string;
  created_at : datetime;
  last_login : option datetime;
  is_active : bool
}.
End Users.

Module ChatSessions.
Record row := mk {
  session_id : string;
  user_id : string;
  created_at : datetime;
  last_activity : datetime
}.
End ChatSessions.

Module Messages.
Record row := mk {
  message_id : string;
  session_id : string;
  user_id : string;
  message_type : string;
  user_message : option string;
  image_path : option string;
  bot_response : string;
  timestamp : datetime
}.
End Messages.

Module UserAnalytics.
Record row := mk {
  user_id : string;
  total_queries : Z;
  text_queries : Z;
  image_queries : Z;
  last_query_date : option datetime
}.
End UserAnalytics.

Record db := mkdb {
  users : list Users.row;
  chat_sessions : list ChatSessions.row;
  messages : list Messages.row;
  user_analytics : list UserAnalytics.row
}.

Definition empty_db : db := mkdb [] [] [] [].

(** ** Values and dicts handed back to Python *)

Inductive value :=
| VNone
| VStr (s : string)
| VInt (z : Z)
| VTime (t : datetime).

Definition dict := list (string * value).

Fixpoint dict_get (d : dict) (k : string) : option value :=
  match d with
  | [] => None
  | (k', v) :: d' => if String.eqb k' k then Some v else dict_get d' k
  end.

Definition keys (d : dict) : list string := map fst d.

Definition opt_str (o : option string) : value :=
  match o with Some s => VStr s | None => VNone end.

Definition opt_int (o : option Z) : value :=
  match o with Some z => VInt z | None => VNone end.

Definition opt_time (o : option datetime) : value :=
  match o with Some t => VTime t | None => VNone end.

(** Python truthiness, and [a or b]. *)
Definition truthy (v : value) : bool :=
  match v with
  | VNone => false
  | VStr s => negb (String.eqb s "")
  | VInt z => negb (z =? 0)
  | VTime _ => true
  end.

Definition py_or (a b : value) : value := if truthy a then a else b.

(** ** Transactions *)

Inductive exn := IntegrityError.

Inductive result (A : Type) :=
| Ok (a : A)
| Raise (e : exn).
Arguments Ok {A} a.
Arguments Raise {A} e.

(** A statement runs on the connection's working copy. *)
Definition stmt (A : Type) := db -> result (A * db).

Definition ret {A} (a : A) : stmt A := fun w => Ok (a, w).

Definition bind {A B} (m : stmt A) (k : A -> stmt B) : stmt B :=
  fun w => match m w with
           | Ok (a, w') => k a w'
           | Raise e => Raise e
           end.

Notation "m ;; k" := (bind m (fun _ => k))
  (at level 61, right associativity).

(** ** Column constraints *)

Definition CHECK_role (role : string) : bool :=
  String.eqb role "student" || String.eqb role "faculty".

Definition CHECK_message_type (message_type : string) : bool :=
  String.eqb message_type "text" || String.eqb message_type "image".

Definition user_id_taken (w : db) (uid : string) : bool :=
  existsb (fun u => String.eqb (Users.user_id u) uid) (users w).

Definition username_taken (w : db) (name : string) : bool :=
  existsb (fun u => String.eqb (Users.username u) name) (users w).

Definition email_taken (w : db) (mail : string) : bool :=
  existsb (fun u => String.eqb (Users.email u) mail) (users w).

Definition session_id_taken (w : db) (sid : string) : bool :=
  existsb (fun c => String.eqb (ChatSessions.session_id c) sid)
          (chat_sessions w).

Definition message_id_taken (w : db) (mid : string) : bool :=
  existsb (fun m => String.eqb (Messages.message_id m) mid) (messages w).

(** ** The SQL statements of [database.py] *)

(** [INSERT INTO users (user_id, username, email, password_hash, role,
    full_name, department)]: created_at, last_login and is_active take
    their defaults. *)
Definition insert_users (uid name mail pwhash role fname : string)
    (dept : option string) (now : datetime) : stmt unit :=
  fun w =>
    if user_id_taken w uid || username_taken w name || email_taken w mail
       || negb (CHECK_role role)
    then Raise IntegrityError
    else Ok (tt, mkdb (users w ++ [Users.mk uid name mail pwhash role fname
                                            dept now None true])
                      (chat_sessions w) (messages w) (user_analytics w)).

(** [INSERT INTO user_analytics (user_id)]: the counters default to 0. *)
Definition insert_user_analytics (uid : string) : stmt unit :=
  fun w =>
    Ok (tt, mkdb (users w) (chat_sessions w) (messages w)
                 (user_analytics w ++ [UserAnalytics.mk uid 0 0 0 None])).

(** [UPDATE users SET last_login = CURRENT_TIMESTAMP WHERE user_id = ?] *)
Definition set_last_login (uid : string) (now : datetime)
    (u : Users.row) : Users.row :=
  if String.eqb (Users.user_id u) uid
  then Users.mk (Users.user_id u) (Users.username u) (Users.email u)
                (Users.password_hash u) (Users.role u) (Users.full_name u)
                (Users.department u) (Users.created_at u) (Some now)
                (Users.is_active u)
  else u.

Definition update_users_last_login (uid : string) (now : datetime)
    : stmt unit :=
  fun w =>
    Ok (tt, mkdb (map (set_last_login uid now) (users w))
                 (chat_sessions w) (messages w) (user_analytics w)).

(** [INSERT INTO chat_sessions (session_id, user_id)] *)
Definition insert_chat_sessions (sid uid : string) (now : datetime)
    : stmt unit :=
  fun w =>
    if session_id_taken w sid
    then Raise IntegrityError
    else Ok (tt, mkdb (users w)
                      (chat_sessions w ++ [ChatSessions.mk sid uid now now])
                      (messages w) (user_analytics w)).

(** [INSERT INTO messages (message_id, session_id, user_id, message_type,
    user_message, image_path, bot_response)] *)
Definition insert_messages (mid sid uid mtype : string)
    (umsg ipath : option string) (resp : string) (now : datetime)
    : stmt unit :=
  fun w =>
    if message_id_taken w mid || negb (CHECK_message_type mtype)
    then Raise IntegrityError
    else Ok (tt, mkdb (users w) (chat_sessions w)
                      (messages w ++ [Messages.mk mid sid uid mtype umsg
                                                  ipath resp now])
                      (user_analytics w)).

(** [UPDATE chat_sessions SET last_activity = CURRENT_TIMESTAMP
    WHERE session_id = ?] *)
Definition set_last_activity (sid : string) (now : datetime)
    (c : ChatSessions.row) : ChatSessions.row :=
  if String.eqb (ChatSessions.session_id c) sid
  then ChatSessions.mk (ChatSessions.session_id c) (ChatSessions.user_id c)
                       (ChatSessions.created_at c) now
  else c.

Definition update_chat_sessions_last_activity (sid : string)
    (now : datetime) : stmt unit :=
  fun w =>
    Ok (tt, mkdb (users w) (map (set_last_activity sid now) (chat_sessions w))
                 (messages w) (user_analytics w)).

(** [UPDATE user_analytics SET total_queries = total_queries + 1,
      text_queries = text_queries + CASE WHEN ? = 'text' THEN 1 ELSE 0 END,
      image_queries = image_queries + CASE WHEN ? = 'image' THEN 1 ELSE 0 END,
      last_query_date = CURRENT_TIMESTAMP WHERE user_id = ?] *)
Definition bump (mtype : string) (now : datetime)
    (a : UserAnalytics.row) : UserAnalytics.row :=
  UserAnalytics.mk (UserAnalytics.user_id a)
    (UserAnalytics.total_queries a + 1)
    (UserAnalytics.text_queries a
     + (if String.eqb mtype "text" then 1 else 0))
    (UserAnalytics.image_queries a
     + (if String.eqb mtype "image" then 1 else 0))
    (Some now).

Definition record_query (uid mtype : string) (now : datetime)
    (a : UserAnalytics.row) : UserAnalytics.row :=
  if String.eqb (UserAnalytics.user_id a) uid then bump mtype now a else a.

Definition update_user_analytics (uid mtype : string) (now : datetime)
    : stmt unit :=
  fun w =>
    Ok (tt, mkdb (users w) (chat_sessions w) (messages w)
                 (map (record_query uid mtype now) (user_analytics w))).

(** [conn = get_connection(); ...; conn.commit(); conn.close()]: the body
    runs on a working copy, which is published when the commit is reached;
    an exception leaves the function before the commit. *)
Definition transaction {A} (body : stmt A) (s : db) : db * result A :=
  match body s with
  | Ok (a, w) => (w, Ok a)
  | Raise e => (s, Raise e)
  end.

(** ** ORDER BY ... DESC

    SQL leaves the relative order of rows with equal keys open.  SQLite
    hands the rows to its sorter in the order the scan produces them and
    keeps that order among equal keys, so [ORDER BY key DESC] is a stable
    insertion sort: a row goes in front of the first row whose key is not
    greater than its own. *)
Section OrderBy.
Context {A K : Type}.
Variable ltb : K -> K -> bool.
Variable key : A -> K.

Fixpoint insert_desc (x : A) (l : list A) : list A :=
  match l with
  | [] => [x]
  | y :: l' => if ltb (key x) (key y) then y :: insert_desc x l'
               else x :: y :: l'
  end.

Definition order_by_desc (rows : list A) : list A :=
  fold_right insert_desc [] rows.

(** [a] may stand in front of [b]: its key is not smaller. *)
Definition desc (a b : A) : Prop := ltb (key a) (key b) = false.
End OrderBy.

(** SQLite's order on a nullable INTEGER column: NULL sorts below every
    integer. *)
Definition null_ltb (a b : option Z) : bool :=
  match a, b with
  | None, None => false
  | None, Some _ => true
  | Some _, None => false
  | Some x, Some y => x <? y
  end.

(** [LIMIT ?]: a negative limit is no limit. *)
Definition sql_limit {A} (limit : Z) (rows : list A) : list A :=
  if limit <? 0 then rows else firstn (Z.to_nat limit) rows.

(** ** class Database *)

Section Database.
(** [bcrypt.hashpw(password, salt)] and [bcrypt.checkpw(password, hash)]. *)
Variable hashpw : string -> string -> string.
Variable checkpw : string -> string -> bool.

Definition create_user (s : db)
    (username email password role full_name : string)
    (department : option string) (uuid salt : string) (now : datetime)
    : db * bool :=
  let user_id := uuid in
  let password_hash := hashpw password salt in
  match transaction
          (insert_users user_id username email password_hash role
                        full_name department now ;;
           insert_user_analytics user_id) s with
  | (s', Ok _) => (s', true)
  | (s', Raise IntegrityError) => (s', false)
  end.

Definition update_last_login (s : db) (user_id : string) (now : datetime)
    : db :=
  fst (transaction (update_users_last_login user_id now) s).

(** [SELECT ... FROM users WHERE username = ?] then [fetchone()]. *)
Definition select_user (s : db) (username : string) : option Users.row :=
  find (fun u => String.eqb (Users.username u) username) (users s).

Definition user_info (user : Users.row) : dict :=
  [ ("user_id", VStr (Users.user_id user));
    ("username", VStr (Users.username user));
    ("email", VStr (Users.email user));
    ("role", VStr (Users.role user));
    ("full_name", VStr (Users.full_name user));
    ("department", opt_str (Users.department user)) ].

Definition authenticate_user (s : db) (username password : string)
    (now : datetime) : db * option dict :=
  match select_user s username with
  | Some user =>
      if Users.is_active user
         && checkpw password (Users.password_hash user)
      then (update_last_login s (Users.user_id user) now,
            Some (user_info user))
      else (s, None)
  | None => (s, None)
  end.

Definition create_chat_session (s : db) (user_id : string)
    (uuid : string) (now : datetime) : db * result string :=
  let session_id := uuid in
  transaction (insert_chat_sessions session_id user_id now ;;
               ret session_id) s.

Definition save_message (s : db) (session_id user_id message_type : string)
    (user_message image_path : option string) (bot_response : string)
    (uuid : string) (now : datetime) : db * result unit :=
  let message_id := uuid in
  transaction
    (insert_messages message_id session_id user_id message_type
                     user_message image_path bot_response now ;;
     update_chat_sessions_last_activity session_id now ;;
     update_user_analytics user_id message_type now) s.

(** [FROM messages m JOIN chat_sessions cs ON m.session_id = cs.session_id
    WHERE m.user_id = ?]: one result row per message of the user and
    session row carrying the message's session id. *)
Definition history_join (s : db) (user_id : string) : list Messages.row :=
  flat_map
    (fun m =>
       if String.eqb (Messages.user_id m) user_id
       then map (fun _ => m)
                (filter (fun c => String.eqb (ChatSessions.session_id c)
                                             (Messages.session_id m))
                        (chat_sessions s))
       else [])
    (messages s).

Definition history_rows (s : db) (user_id : string) (limit : Z)
    : list Messages.row :=
  sql_limit limit
    (order_by_desc Z.ltb Messages.timestamp (history_join s user_id)).

Definition history_entry (msg : Messages.row) : dict :=
  [ ("message_type", VStr (Messages.message_type msg));
    ("user_message", opt_str (Messages.user_message msg));
    ("image_path", opt_str (Messages.image_path msg));
    ("bot_response", VStr (Messages.bot_response msg));
    ("timestamp", VTime (Messages.timestamp msg)) ].

Definition get_chat_history (s : db) (user_id : string) (limit : Z)
    : list dict :=
  map history_entry (history_rows s user_id limit).

Definition select_analytics (s : db) (user_id : string)
    : option UserAnalytics.row :=
  find (fun a => String.eqb (UserAnalytics.user_id a) user_id)
       (user_analytics s).

Definition get_user_analytics (s : db) (user_id : string) : dict :=
  match select_analytics s user_id with
  | Some r =>
      [ ("total_queries", VInt (UserAnalytics.total_queries r));
        ("text_queries", VInt (UserAnalytics.text_queries r));
        ("image_queries", VInt (UserAnalytics.image_queries r));
        ("last_query_date", opt_time (UserAnalytics.last_query_date r)) ]
  | None =>
      [ ("total_queries", VInt 0); ("text_queries", VInt 0);
        ("image_queries", VInt 0); ("last_query_date", VNone) ]
  end.

(** [FROM users u LEFT JOIN user_analytics ua ON u.user_id = ua.user_id
    WHERE u.is_active = 1]: a user without counters row is kept, with
    NULL counters. *)
Definition left_join_analytics (s : db) (u : Users.row)
    : list (Users.row * option UserAnalytics.row) :=
  match filter (fun a => String.eqb (Users.user_id u)
                                    (UserAnalytics.user_id a))
               (user_analytics s) with
  | [] => [(u, None)]
  | l => map (fun a => (u, Some a)) l
  end.

Definition platform_join (s : db)
    : list (Users.row * option UserAnalytics.row) :=
  flat_map (left_join_analytics s) (filter Users.is_active (users s)).

(** The sort key [ua.total_queries] of a joined row. *)
Definition ua_total (r : Users.row * option UserAnalytics.row)
    : option Z :=
  option_map UserAnalytics.total_queries (snd r).

Definition platform_rows (s : db)
    : list (Users.row * option UserAnalytics.row) :=
  order_by_desc null_ltb ua_total (platform_join s).

Definition platform_entry (r : Users.row * option UserAnalytics.row)
    : dict :=
  let (u, ua) := r in
  [ ("username", VStr (Users.username u));
    ("full_name", VStr (Users.full_name u));
    ("role", VStr (Users.role u));
    ("department", opt_str (Users.department u));
    ("created_at", VTime (Users.created_at u));
    ("total_queries",
     py_or (opt_int (option_map UserAnalytics.total_queries ua)) (VInt 0));
    ("text_queries",
     py_or (opt_int (option_map UserAnalytics.text_queries ua)) (VInt 0));
    ("image_queries",
     py_or (opt_int (option_map UserAnalytics.image_queries ua)) (VInt 0));
    ("last_query_date",
     match ua with
     | Some a => opt_time (UserAnalytics.last_query_date a)
     | None => VNone
     end) ].

Definition get_all_users_analytics (s : db) : list dict :=
  map platform_entry (platform_rows s).

(** ** class AuthManager *)

(** The characters [str.strip()] removes. *)
Definition isspace (c : ascii) : bool :=
  let n := N_of_ascii c in
  (((9 <=? n) && (n <=? 13)) || ((28 <=? n) && (n <=? 32))
   || (n =? 133) || (n =? 160))%N.

Fixpoint blank (x : string) : bool :=
  match x with
  | EmptyString => true
  | String c x' => isspace c && blank x'
  end.

(** [c in x] for a one-character [c]. *)
Fixpoint contains (c : ascii) (x : string) : bool :=
  match x with
  | EmptyString => false
  | String c' x' => Ascii.eqb c c' || contains c x'
  end.

(** The checks of [register_user] that come before the store is touched:
    the message of the first one that fails. *)
Definition validate (username email password confirm_password
                     full_name : string) : option string :=
  if (String.length username <? 3)%nat
  then Some "Username must be at least 3 characters long"
  else if (String.length password <? 6)%nat
  then Some "Password must be at least 6 characters long"
  else if negb (String.eqb password confirm_password)
  then Some "Passwords do not match"
  else if negb (contains "@" email) || negb (contains "." email)
  then Some "Please enter a valid email address"
  else if blank full_name
  then Some "Full name is required"
  else None.

Definition register_user (s : db)
    (username email password confirm_password role full_name : string)
    (department : option string) (uuid salt : string) (now : datetime)
    : db * (bool * string) :=
  match validate username email password confirm_password full_name with
  | Some msg => (s, (false, msg))
  | None =>
      let (s', success) :=
        create_user s username email password role full_name department
                    uuid salt now in
      if success
      then (s', (true, "Registration successful! Please log in."))
      else (s', (false, "Username or email already exists"))
  end.

(** [st.session_state], as far as [login_user] writes it. *)
Record session_state := mkss {
  authenticated : bool;
  ss_user_info : option dict;
  current_session_id : option string
}.

(** [user_info['full_name']]: a NOT NULL text column. *)
Definition dict_str (d : dict) (k : string) : string :=
  match dict_get d k with
  | Some (VStr x) => x
  | _ => ""
  end.

Definition login_user (s : db) (ss : session_state)
    (username password : string) (uuid : string) (now : datetime)
    : db * session_state * result (bool * string) :=
  if String.eqb username "" || String.eqb password ""
  then (s, ss, Ok (false, "Please enter both username and password"))
  else
    match authenticate_user s username password now with
    | (s1, Some info) =>
        match create_chat_session s1 (dict_str info "user_id") uuid now with
        | (s2, Ok sid) =>
            (s2, mkss true (Some info) (Some sid),
             Ok (true, "Welcome back, " ++ dict_str info "full_name" ++ "!"))
        | (s2, Raise e) =>
            (s2, mkss true (Some info) (current_session_id ss), Raise e)
        end
    | (s1, None) => (s1, ss, Ok (false, "Invalid username or password"))
    end.

(** ** Runs of the store *)

Inductive op :=
| CreateUser (username email password role full_name : string)
             (department : option string) (uuid salt : string)
             (now : datetime)
| RegisterUser (username email password confirm_password role
                full_name : string)
               (department : option string) (uuid salt : string)
               (now : datetime)
| AuthenticateUser (username password : string) (now : datetime)
| LoginUser (ss : session_state) (username password uuid : string)
            (now : datetime)
| CreateChatSession (user_id uuid : string) (now : datetime)
| SaveMessage (session_id user_id message_type : string)
              (user_message image_path : option string)
              (bot_response uuid : string) (now : datetime).

Definition step (s : db) (o : op) : db :=
  match o with
  | CreateUser u e p r f d uuid salt now =>
      fst (create_user s u e p r f d uuid salt now)
  | RegisterUser u e p c r f d uuid salt now =>
      fst (register_user s u e p c r f d uuid salt now)
  | AuthenticateUser u p now => fst (authenticate_user s u p now)
  | LoginUser ss u p uuid now => fst (fst (login_user s ss u p uuid now))
  | CreateChatSession uid uuid now =>
      fst (create_chat_session s uid uuid now)
  | SaveMessage sid uid mt um ip br uuid now =>
      fst (save_message s sid uid mt um ip br uuid now)
  end.

Definition run (ops : list op) (s : db) : db := fold_left step ops s.

(** The stores the program can be in. *)
Definition reachable (s : db) : Prop := exists ops, s = run ops empty_db.

End Database.

(** ** A stand-in for bcrypt, to run the store on concrete inputs *)

Definition toy_hashpw (password salt : string) : string :=
  "$2b$" ++ salt ++ "$" ++ password.

Fixpoint drop_salt (h : string) : string :=
  match h with
  | EmptyString => EmptyString
  | String c h' => if Ascii.eqb c "$" then h' else drop_salt h'
  end.

(** Salts are taken without a dollar sign, as bcrypt's alphabet has none. *)
Definition toy_checkpw (password hash : string) : bool :=
  match hash with
  | String "$" (String "2" (String "b" (String "$" rest))) =>
      String.eqb (drop_salt rest) password
  | _ => false
  end.

(** The scenario of the specification, run on the model. *)
Definition scenario : list op :=
  [ RegisterUser "alice" "alice@x.edu" "password1" "password1" "student"
                 "Alice A" None "u-1" "salt" 100;
    AuthenticateUser "alice" "password1" 101;
    CreateChatSession "u-1" "S1" 102;
    SaveMessage "S1" "u-1" "text" (Some "explain X") None "X is..." "m-1" 103;
    SaveMessage "S1" "u-1" "image" None (Some "diagram.png")
                "This shows..." "m-2" 104 ].

(** ** Vocabulary of the properties *)




(** An integer entry of a dict. *)
Definition dict_int (d : dict) (k : string) : Z :=
  match dict_get d k with
  | Some (VInt z) => z
  | _ => 0
  end.

(** Adjacent entries are in order. *)
Fixpoint is_sorted {A} (le : A -> A -> bool) (l : list A) : bool :=
  match l with
  | [] => true
  | a :: l' =>
      match l' with
      | [] => true
      | b :: _ => le a b && is_sorted le l'
      end
  end.

(** Total query count descending, ties by username ascending. *)
Definition total_then_username (a b : dict) : bool :=
  (dict_int b "total_queries" <? dict_int a "total_queries")
  || ((dict_int a "total_queries" =? dict_int b "total_queries")
      && String.leb (dict_str a "username") (dict_str b "username")).

(** Total query count descending. *)
Definition total_desc (a b : dict) : Prop :=
  dict_int b "total_queries" <= dict_int a "total_queries".

(** The joined rows whose sort key is [k]. *)
Definition same_total (k : option Z)
    (r : Users.row * option UserAnalytics.row) : bool :=
  match ua_total r, k with
  | Some x, Some y => x =? y
  | None, None => true
  | _, _ => false
  end.

Definition counters_nonneg (s : db) : Prop :=
  Forall (fun a => 0 <= UserAnalytics.total_queries a) (user_analytics s).

(** Two users who never asked anything, bob registered before alice. *)
Definition tie_db : db :=
  run toy_hashpw toy_checkpw
    [ CreateUser "bob" "bob@x.edu" "password1" "student" "Bob B" None
                 "u-1" "salt" 100;
      CreateUser "alice" "alice@x.edu" "password2" "student" "Alice A" None
                 "u-2" "salt" 101 ]
    empty_db.

(** ** The committed changes of a store

    What one commit of [database.py] does to the four tables.  Every
    operation of the store is a sequence of these ([step_changes]). *)

Definition zero_counters (uid : string) : UserAnalytics.row :=
  UserAnalytics.mk uid 0 0 0 None.

Inductive db_change (s : db) : db -> Prop :=
| change_create_user (uid name mail pwhash role fname : string)
    (dept : option string) (now : datetime) :
    user_id_taken s uid = false ->
    username_taken s name = false ->
    email_taken s mail = false ->
    CHECK_role role = true ->
    db_change s
      (mkdb (users s ++ [Users.mk uid name mail pwhash role fname dept now
                                  None true])
            (chat_sessions s) (messages s)
            (user_analytics s ++ [zero_counters uid]))
| change_last_login (uid : string) (now : datetime) :
    db_change s
      (mkdb (map (set_last_login uid now) (users s))
            (chat_sessions s) (messages s) (user_analytics s))
| change_create_chat_session (sid uid : string) (now : datetime) :
    session_id_taken s sid = false ->
    db_change s
      (mkdb (users s) (chat_sessions s ++ [ChatSessions.mk sid uid now now])
            (messages s) (user_analytics s))
| change_save_message (mid sid uid mtype : string)
    (umsg ipath : option string) (resp : string) (now : datetime) :
    message_id_taken s mid = false ->
    CHECK_message_type mtype = true ->
    db_change s
      (mkdb (users s) (map (set_last_activity sid now) (chat_sessions s))
            (messages s ++ [Messages.mk mid sid uid mtype umsg ipath resp
                                        now])
            (map (record_query uid mtype now) (user_analytics s))).

Inductive db_changes (s : db) : db -> Prop :=
| changes_none : db_changes s s
| changes_more s1 s2 :
    db_changes s s1 -> db_change s1 s2 -> db_changes s s2.

(** [total == text + image] on one counters row. *)
Definition consistent (a : UserAnalytics.row) : Prop :=
  UserAnalytics.total_queries a
  = UserAnalytics.text_queries a + UserAnalytics.image_queries a.

(** Every user has a counters row. *)
Definition users_have_counters (s : db) : Prop :=
  forall uid, user_id_taken s uid = true -> select_analytics s uid <> None.

Definition is_ok {A} (r : result A) : bool :=
  match r with
  | Ok _ => true
  | Raise _ => false
  end.

(** What one operation adds to the count of a user's appended messages. *)
Definition op_appends (uid : string) (s : db) (o : op) : nat :=
  match o with
  | SaveMessage sid u mt um ip br uuid now =>
      if String.eqb u uid
         && is_ok (snd (save_message s sid u mt um ip br uuid now))
      then 1%nat else 0%nat
  | _ => 0%nat
  end.

(** The number of messages a run appends for a user. *)
Fixpoint appended (hashpw : string -> string -> string)
    (checkpw : string -> string -> bool) (uid : string) (ops : list op)
    (s : db) : nat :=
  match ops with
  | [] => 0%nat
  | o :: ops' =>
      (op_appends uid s o
       + appended hashpw checkpw uid ops' (step hashpw checkpw s o))%nat
  end.

(** alice is registered, has logged in and holds session S1. *)
Definition session_db : db :=
  run toy_hashpw toy_checkpw (firstn 3 scenario) empty_db.

(** The store after the whole scenario. *)
Definition scenario_db : db :=
  run toy_hashpw toy_checkpw scenario empty_db.






(** A user row without its login time. *)
Definition forget_login (u : Users.row) : Users.row :=
  Users.mk (Users.user_id u) (Users.username u) (Users.email u)
           (Users.password_hash u) (Users.role u) (Users.full_name u)
           (Users.department u) (Users.created_at u) None
           (Users.is_active u).

Definition account (s : db) (username : string) : option Users.row :=
  option_map forget_login (select_user s username).

(** alice appends three messages, the first two within one clock tick. *)
Definition burst_db : db :=
  run toy_hashpw toy_checkpw
    [ SaveMessage "S1" "u-1" "text" (Some "first") None "one" "m-1" 103;
      SaveMessage "S1" "u-1" "text" (Some "second") None "two" "m-2" 103;
      SaveMessage "S1" "u-1" "text" (Some "third") None "three" "m-3" 104 ]
    session_db.

(** A store with a deactivated user (carol) and unequal totals. *)
Definition mixed_db : db :=
  mkdb [ Users.mk "u-1" "alice" "alice@x.edu" "h1" "student" "Alice A" None
                  100 None true;
         Users.mk "u-2" "carol" "carol@x.edu" "h2" "student" "Carol C" None
                  101 None false;
         Users.mk "u-3" "bob" "bob@x.edu" "h3" "faculty" "Bob B"
                  (Some "Physics") 102 None true ]
       [] []
       [ UserAnalytics.mk "u-1" 2 1 1 (Some 104);
         UserAnalytics.mk "u-2" 9 9 0 (Some 105);
         UserAnalytics.mk "u-3" 5 5 0 (Some 106) ].

(** ** The rest of [AuthManager]

    [session_state] holds the three keys [init_session_state] makes sure of;
    the other keys of [st.session_state] ([chat_history], [show_welcome],
    [active_tab], ...) are an association list beside it. *)

Definition is_authenticated (ss : session_state) : bool := authenticated ss.

Definition get_current_user (ss : session_state) : option dict :=
  ss_user_info ss.

Definition get_current_session_id (ss : session_state) : option string :=
  current_session_id ss.

(** [logout_user]: the three keys are reset and every key that starts with
    [chat_] is deleted. *)
Definition logout_user {V} (ss : session_state) (others : list (string * V))
    : session_state * list (string * V) :=
  (mkss false None None,
   filter (fun kv => negb (String.prefix "chat_" (fst kv))) others).

(** [st.error(msg); st.stop()] ends the script run; otherwise the caller
    goes on.  [user['role']] on a dict without that key is a KeyError. *)
Inductive gate :=
| Proceed
| Stop (error : string)
| KeyError (key : string).

Definition require_auth (ss : session_state) : gate :=
  if negb (is_authenticated ss)
  then Stop "🔒 Please log in to access this feature"
  else Proceed.

Definition require_role (ss : session_state) (required_role : string)
    : gate :=
  match require_auth ss with
  | Proceed =>
      match get_current_user ss with
      | None => Proceed
      | Some [] => Proceed
      | Some user =>
          match dict_get user "role" with
          | None => KeyError "role"
          | Some (VStr role) =>
              if negb (String.eqb role required_role)
              then Stop ("🚫 This feature is only available for "
                         ++ required_role ++ "s")
              else Proceed
          | Some _ =>
              Stop ("🚫 This feature is only available for "
                    ++ required_role ++ "s")
          end
      end
  | blocked => blocked
  end.

(** ** Callers in [app.py] *)

(** An entry of [st.session_state.chat_history]. *)
Definition chat_entry (role content : string) : dict :=
  [("role", VStr role); ("content", VStr content)].

(** What can end [process_text_query] early: [user['user_id']] with no user
    in the session state, or the exception of [save_message]. *)
Inductive app_error :=
| TypeError
| DatabaseError (e : exn).

(** [process_text_query(query)].  [generate_text_response] catches its own
    exceptions and always returns a pair: [response] and [success] are what
    it returned.  The session's user info is the dict [authenticate_user]
    built, whose [user_id] is a string. *)
Definition process_text_query (s : db) (ss : session_state)
    (chat_history : list dict) (query response : string) (success : bool)
    (uuid : string) (now : datetime)
    : db * list dict * option app_error :=
  let user := get_current_user ss in
  let chat_history :=
    (chat_history ++ [chat_entry "user" query;
                      chat_entry "assistant" response])%list in
  match get_current_session_id ss with
  | None => (s, chat_history, None)
  | Some session_id =>
      if String.eqb session_id "" then (s, chat_history, None)
      else
        match user with
        | None => (s, chat_history, Some TypeError)
        | Some info =>
            match save_message s session_id (dict_str info "user_id") "text"
                               (Some query) None response uuid now with
            | (s', Ok _) => (s', chat_history, None)
            | (s', Raise e) => (s', chat_history, Some (DatabaseError e))
            end
        end
  end.

(** The summary metrics of [render_analytics_dashboard]: nothing for an
    empty snapshot, otherwise the number of users and the sums of their
    total, text and image queries. *)
Definition sum_of (k : string) (all_users : list dict) : Z :=
  fold_right (fun user acc => dict_int user k + acc) 0 all_users.

Definition summary_metrics (s : db) : option (Z * Z * Z * Z) :=
  match get_all_users_analytics s with
  | [] => None
  | all_users =>
      Some (Z.of_nat (List.length all_users),
            sum_of "total_queries" all_users,
            sum_of "text_queries" all_users,
            sum_of "image_queries" all_users)
  end.

(** [sorted(all_users, key=lambda x: x['total_queries'], reverse=True)[:5]]:
    Python's sort is stable, also with [reverse=True]. *)
Definition top_users (s : db) : list dict :=
  firstn 5 (order_by_desc Z.ltb (fun d => dict_int d "total_queries")
                          (get_all_users_analytics s)).

(** ** Vocabulary of the further properties *)

(** The UNIQUE constraints of the schema. *)
Definition unique_keys (s : db) : Prop :=
  NoDup (map Users.user_id (users s))
  /\ NoDup (map Users.username (users s))
  /\ NoDup (map Users.email (users s))
  /\ NoDup (map ChatSessions.session_id (chat_sessions s))
  /\ NoDup (map Messages.message_id (messages s)).

(** The counters table lists the users, row for row. *)
Definition counters_match_users (s : db) : Prop :=
  map UserAnalytics.user_id (user_analytics s)
  = map Users.user_id (users s).

(** The number of a user's messages in the ledger that pass [p]. *)
Definition count_messages (s : db) (uid : string)
    (p : Messages.row -> bool) : Z :=
  Z.of_nat (List.length
              (filter (fun m => String.eqb (Messages.user_id m) uid && p m)
                      (messages s))).

Definition of_type (mtype : string) (m : Messages.row) : bool :=
  String.eqb (Messages.message_type m) mtype.

(** A session row without its last activity. *)
Definition forget_activity (c : ChatSessions.row) : ChatSessions.row :=
  ChatSessions.mk (ChatSessions.session_id c) (ChatSessions.user_id c)
                  (ChatSessions.created_at c) 0.

(** The three counters [get_user_analytics] reports have not gone down. *)
Definition counters_le (d d' : dict) : Prop :=
  dict_int d "total_queries" <= dict_int d' "total_queries"
  /\ dict_int d "text_queries" <= dict_int d' "text_queries"
  /\ dict_int d "image_queries" <= dict_int d' "image_queries".

(** Nothing stored is lost between two stores: the ledger only grows at its
    end, user rows change in [last_login] only and session rows in
    [last_activity] only. *)
Definition extends (s s' : db) : Prop :=
  (exists tail, messages s' = (messages s ++ tail)%list)
  /\ (exists tail, map forget_login (users s')
                   = (map forget_login (users s) ++ tail)%list)
  /\ (exists tail, map forget_activity (chat_sessions s')
                   = (map forget_activity (chat_sessions s) ++ tail)%list).

(** Between two stores a user's counters have grown by exactly what the
    ledger has gained for that user: in all, in text messages and in image
    messages. *)
Definition in_step (s0 s : db) (uid : string) : Prop :=
  exists a0 a,
    select_analytics s0 uid = Some a0
    /\ select_analytics s uid = Some a
    /\ UserAnalytics.total_queries a - UserAnalytics.total_queries a0
       = count_messages s uid (fun _ => true)
         - count_messages s0 uid (fun _ => true)
    /\ UserAnalytics.text_queries a - UserAnalytics.text_queries a0
       = count_messages s uid (of_type "text")
         - count_messages s0 uid (of_type "text")
    /\ UserAnalytics.image_queries a - UserAnalytics.image_queries a0
       = count_messages s uid (of_type "image")
         - count_messages s0 uid (of_type "image").

(** A user row with a new login time. *)
Definition with_last_login (now : datetime) (u : Users.row) : Users.row :=
  Users.mk (Users.user_id u) (Users.username u) (Users.email u)
           (Users.password_hash u) (Users.role u) (Users.full_name u)
           (Users.department u) (Users.created_at u) (Some now)
           (Users.is_active u).

(** alice's row after the scenario, and her state after logging in again. *)
Definition alice_row : Users.row :=
  Users.mk "u-1" "alice" "alice@x.edu" (toy_hashpw "password1" "salt")
           "student" "Alice A" None 100 (Some 101) true.

Definition alice_session : session_state :=
  mkss true (Some (user_info alice_row)) (Some "S1").

(** * Properties *)

(** ** The scenario of the specification *)

Example scenario_counters :
  get_user_analytics (run toy_hashpw toy_checkpw scenario empty_db) "u-1"
  = [ ("total_queries", VInt 2); ("text_queries", VInt 1);
      ("image_queries", VInt 1); ("last_query_date", VTime 104) ].
Proof. reflexivity. Qed.

Example scenario_short_password :
  register_user toy_hashpw empty_db "alice" "alice@x.edu" "abc" "abc"
                "student" "Alice A" None "u-1" "salt" 100
  = (empty_db, (false, "Password must be at least 6 characters long")).
Proof. reflexivity. Qed.

Example scenario_history :
  map (fun d => dict_get d "timestamp")
      (get_chat_history (run toy_hashpw toy_checkpw scenario empty_db)
                        "u-1" 50)
  = [Some (VTime 104); Some (VTime 103)].
Proof. reflexivity. Qed.

(** ** ORDER BY: a sorted, stable rearrangement *)

Section OrderByFacts.
Context {A K : Type}.
Variable ltb : K -> K -> bool.
Variable key : A -> K.

Hypothesis ltb_asym : forall x y, ltb x y = true -> ltb y x = false.

Lemma insert_desc_perm x l : Permutation (insert_desc ltb key x l) (x :: l).
Proof.
  induction l as [|y l IH]; simpl.
  - apply Permutation_refl.
  - destruct (ltb (key x) (key y)).
    + eapply perm_trans; [apply perm_skip, IH | apply perm_swap].
    + apply Permutation_refl.
Qed.

Lemma order_by_desc_perm rows : Permutation (order_by_desc ltb key rows) rows.
Proof.
  induction rows as [|x rows IH]; simpl.
  - constructor.
  - eapply perm_trans; [apply insert_desc_perm | apply perm_skip, IH].
Qed.

Lemma insert_desc_hd x l a :
  HdRel (desc ltb key) a l -> desc ltb key a x -> HdRel (desc ltb key) a (insert_desc ltb key x l).
Proof.
  intros Hl Hx. destruct l as [|y l]; simpl.
  - constructor; exact Hx.
  - destruct (ltb (key x) (key y)).
    + constructor. inversion Hl; assumption.
    + constructor; exact Hx.
Qed.

Lemma insert_desc_sorted x l :
  Sorted (desc ltb key) l -> Sorted (desc ltb key) (insert_desc ltb key x l).
Proof.
  induction l as [|y l IH]; simpl; intros Hs.
  - repeat constructor.
  - destruct (ltb (key x) (key y)) eqn:E.
    + inversion Hs as [|? ? Hs' Hhd]; subst.
      constructor; [apply IH; exact Hs' |].
      apply insert_desc_hd; [exact Hhd |].
      unfold desc. apply ltb_asym. exact E.
    + constructor; [exact Hs |]. constructor. exact E.
Qed.

Lemma order_by_desc_sorted rows : Sorted (desc ltb key) (order_by_desc ltb key rows).
Proof.
  induction rows as [|x rows IH]; simpl.
  - constructor.
  - apply insert_desc_sorted, IH.
Qed.

(** Stability: rows picked out by a test that only rows of equal rank
    pass keep the order the scan gave them. *)
Variable sel : A -> bool.
Hypothesis sel_tie :
  forall a b, sel a = true -> sel b = true -> ltb (key a) (key b) = false.

Lemma insert_desc_filter x l :
  filter sel (insert_desc ltb key x l) = filter sel (x :: l).
Proof.
  induction l as [|y l IH]; simpl.
  - reflexivity.
  - destruct (ltb (key x) (key y)) eqn:E; [| reflexivity].
    simpl. rewrite IH. simpl.
    destruct (sel x) eqn:Sx, (sel y) eqn:Sy; try reflexivity.
    rewrite (sel_tie x y Sx Sy) in E. discriminate.
Qed.

Lemma order_by_desc_stable rows :
  filter sel (order_by_desc ltb key rows) = filter sel rows.
Proof.
  induction rows as [|x rows IH]; simpl.
  - reflexivity.
  - rewrite insert_desc_filter. simpl. rewrite IH. reflexivity.
Qed.
End OrderByFacts.

Lemma filter_firstn_prefix {A} (p : A -> bool) (n : nat) (l : list A) :
  exists rest, filter p l = (filter p (firstn n l) ++ rest)%list.
Proof.
  exists (filter p (skipn n l)).
  rewrite <- filter_app, firstn_skipn. reflexivity.
Qed.




(** ** History *)


Lemma filter_unique_key {A} (f : A -> string) (x : string) (l : list A) :
  NoDup (map f l) ->
  List.length (filter (fun c => String.eqb (f c) x) l)
  = if existsb (fun c => String.eqb (f c) x) l then 1%nat else 0%nat.
Proof.
  induction l as [|c l IH]; simpl; intros Hnd; [reflexivity |].
  inversion Hnd as [|? ? Hnotin Hnd']; subst.
  destruct (String.eqb_spec (f c) x) as [E|E]; simpl.
  - rewrite (IH Hnd').
    destruct (existsb (fun c0 => String.eqb (f c0) x) l) eqn:Ex;
      [| reflexivity].
    exfalso. apply Hnotin.
    apply existsb_exists in Ex. destruct Ex as [c' [Hin Hc']].
    apply String.eqb_eq in Hc'. rewrite E, <- Hc'.
    apply in_map. exact Hin.
  - apply IH. exact Hnd'.
Qed.







(** ** Platform snapshot *)

Lemma left_join_fst (s : db) (u : Users.row) r :
  In r (left_join_analytics s u) -> fst r = u.
Proof.
  unfold left_join_analytics.
  destruct (filter _ (user_analytics s)) as [|a l].
  - simpl. intros [H|[]]. subst r. reflexivity.
  - intros H. apply in_map_iff in H. destruct H as [a' [H _]].
    subst r. reflexivity.
Qed.

Lemma left_join_inhabited (s : db) (u : Users.row) :
  exists r, In r (left_join_analytics s u).
Proof.
  unfold left_join_analytics.
  destruct (filter _ (user_analytics s)) as [|a l].
  - exists (u, None). left. reflexivity.
  - exists (u, Some a). left. reflexivity.
Qed.

Lemma left_join_counters (s : db) (u : Users.row) u' a :
  In (u', Some a) (left_join_analytics s u) -> In a (user_analytics s).
Proof.
  unfold left_join_analytics.
  destruct (filter _ (user_analytics s)) as [|a0 l] eqn:F.
  - simpl. intros [H|[]]. discriminate.
  - intros H. apply in_map_iff in H. destruct H as [a' [Heq Hin]].
    inversion Heq; subst a'. rewrite <- F in Hin.
    apply filter_In in Hin. tauto.
Qed.

Lemma platform_join_users (s : db) (u : Users.row) :
  In u (map fst (platform_join s))
  <-> In u (users s) /\ Users.is_active u = true.
Proof.
  unfold platform_join. rewrite <- filter_In, in_map_iff. split.
  - intros [r [Hfst Hin]]. apply in_flat_map in Hin.
    destruct Hin as [u' [Hu' Hr]]. apply left_join_fst in Hr.
    congruence.
  - intros Hu. destruct (left_join_inhabited s u) as [r Hr].
    exists r. split; [apply left_join_fst with (s := s); exact Hr |].
    apply in_flat_map. exists u. split; assumption.
Qed.

Lemma null_ltb_asym x y : null_ltb x y = true -> null_ltb y x = false.
Proof.
  destruct x as [x|], y as [y|]; simpl; try congruence.
  intros H. apply Z.ltb_lt in H. apply Z.ltb_ge. lia.
Qed.

Lemma platform_rows_sorted (s : db) :
  StronglySorted (desc null_ltb ua_total) (platform_rows s).
Proof.
  apply Sorted_StronglySorted.
  - intros a b c. unfold desc.
    destruct (ua_total a) as [x|], (ua_total b) as [y|],
             (ua_total c) as [z|]; simpl; try congruence.
    rewrite !Z.ltb_ge. lia.
  - apply order_by_desc_sorted. exact null_ltb_asym.
Qed.

Lemma StronglySorted_map {A B} (R : A -> A -> Prop) (R' : B -> B -> Prop)
    (f : A -> B) (l : list A) :
  (forall a b, In a l -> In b l -> R a b -> R' (f a) (f b)) ->
  StronglySorted R l -> StronglySorted R' (map f l).
Proof.
  induction l as [|a l IH]; simpl; intros Hf Hs; [constructor |].
  apply StronglySorted_inv in Hs. destruct Hs as [Hs Hall].
  constructor.
  - apply IH; [| exact Hs]. intros x y Hx Hy. apply Hf; right; assumption.
  - apply Forall_forall. intros b Hb. apply in_map_iff in Hb.
    destruct Hb as [x [Hx Hin]]. subst b.
    apply Hf; [left; reflexivity | right; exact Hin |].
    rewrite Forall_forall in Hall. apply Hall. exact Hin.
Qed.

(** The total a snapshot entry reports: the joined counter, 0 for NULL. *)
Lemma platform_entry_total r :
  dict_int (platform_entry r) "total_queries"
  = match ua_total r with Some z => z | None => 0 end.
Proof.
  destruct r as [u [a|]]; unfold ua_total, dict_int; simpl; [| reflexivity].
  unfold py_or. simpl.
  destruct (Z.eqb_spec (UserAnalytics.total_queries a) 0) as [E|E]; simpl.
  - symmetry. exact E.
  - reflexivity.
Qed.

Lemma platform_rows_nonneg (s : db) r :
  counters_nonneg s -> In r (platform_rows s) ->
  0 <= match ua_total r with Some z => z | None => 0 end.
Proof.
  intros Hnn Hin.
  apply (Permutation_in _ (order_by_desc_perm null_ltb ua_total _)) in Hin.
  destruct r as [u [a|]]; unfold ua_total; simpl; [| lia].
  unfold platform_join in Hin. apply in_flat_map in Hin.
  destruct Hin as [u' [_ Hin]]. apply left_join_counters in Hin.
  unfold counters_nonneg in Hnn. rewrite Forall_forall in Hnn.
  apply Hnn. exact Hin.
Qed.

(** C4, as the code has it.  For every store, [get_all_users_analytics]
    lists the active users and only them, ordered by the joined
    [total_queries] descending, a user without counters row (NULL) last;
    users with equal totals stay in the order the join produced them, which
    is the order of the users table, not the order of their usernames.  When
    no counter is negative the reported totals are descending. *)
Theorem platform_snapshot_active_by_total (s : db) :
  get_all_users_analytics s = map platform_entry (platform_rows s)
  /\ (forall u, In u (map fst (platform_rows s))
                <-> In u (users s) /\ Users.is_active u = true)
  /\ StronglySorted (desc null_ltb ua_total) (platform_rows s)
  /\ (forall k, filter (same_total k) (platform_rows s)
                = filter (same_total k) (platform_join s))
  /\ (counters_nonneg s ->
      StronglySorted total_desc (get_all_users_analytics s)).
Proof.
  split; [reflexivity |].
  split.
  { intros u. rewrite <- platform_join_users. unfold platform_rows.
    split; apply Permutation_in, Permutation_map;
      [| apply Permutation_sym]; apply order_by_desc_perm. }
  split; [apply platform_rows_sorted |].
  split.
  { intros k. unfold platform_rows. apply order_by_desc_stable.
    intros a b Ha Hb. unfold same_total in Ha, Hb.
    destruct (ua_total a) as [x|], (ua_total b) as [y|], k as [z|];
      simpl; try congruence.
    apply Z.eqb_eq in Ha, Hb. apply Z.ltb_ge. lia. }
  intros Hnn. unfold get_all_users_analytics.
  apply StronglySorted_map with (R := desc null_ltb ua_total);
    [| apply platform_rows_sorted].
  intros a b Ha Hb Hab. unfold total_desc.
  rewrite !platform_entry_total.
  pose proof (platform_rows_nonneg s a Hnn Ha) as Na.
  pose proof (platform_rows_nonneg s b Hnn Hb) as Nb.
  unfold desc in Hab.
  destruct (ua_total a) as [x|], (ua_total b) as [y|];
    simpl in Hab; try congruence; lia.
Qed.

(** C4, as the specification words it, fails: bob registered before alice,
    neither has asked anything, and the snapshot lists bob first. *)
Lemma platform_snapshot_username_ties_counterexample :
  map (fun d => dict_str d "username") (get_all_users_analytics tie_db)
  = ["bob"; "alice"]
  /\ map (fun d => dict_int d "total_queries") (get_all_users_analytics tie_db)
     = [0; 0]
  /\ is_sorted total_then_username (get_all_users_analytics tie_db) = false.
Proof. repeat split. Qed.

(** ** What the operations commit *)

Lemma db_eta (s : db) :
  mkdb (users s) (chat_sessions s) (messages s) (user_analytics s) = s.
Proof. destruct s. reflexivity. Qed.

Lemma db_changes_trans s1 s2 s3 :
  db_changes s1 s2 -> db_changes s2 s3 -> db_changes s1 s3.
Proof.
  intros H12 H23. induction H23 as [|s3 s4 _ IH Hc].
  - exact H12.
  - eapply changes_more; [exact IH | exact Hc].
Qed.

Lemma db_change_changes s s' : db_change s s' -> db_changes s s'.
Proof. intros H. eapply changes_more; [apply changes_none | exact H]. Qed.

Lemma db_changes_invariant (P : db -> Prop) :
  (forall s s', P s -> db_change s s' -> P s') ->
  forall s s', P s -> db_changes s s' -> P s'.
Proof.
  intros Hstep s s' Hs Hch. induction Hch as [|s1 s2 _ IH Hc].
  - exact Hs.
  - apply (Hstep s1 s2 IH Hc).
Qed.

Section StoreFacts.
#[local] Set Default Proof Using "Type".
Variable hashpw : string -> string -> string.
Variable checkpw : string -> string -> bool.

Lemma create_user_eq s username email password role full_name department
    uuid salt now :
  create_user hashpw s username email password role full_name department
              uuid salt now
  = if user_id_taken s uuid || username_taken s username
       || email_taken s email || negb (CHECK_role role)
    then (s, false)
    else (mkdb (users s ++ [Users.mk uuid username email
                                     (hashpw password salt) role full_name
                                     department now None true])
               (chat_sessions s) (messages s)
               (user_analytics s ++ [zero_counters uuid]),
          true).
Proof.
  unfold create_user, transaction, bind, insert_users, insert_user_analytics.
  destruct (user_id_taken s uuid || username_taken s username
            || email_taken s email || negb (CHECK_role role));
    reflexivity.
Qed.

Lemma create_chat_session_eq s user_id uuid now :
  create_chat_session s user_id uuid now
  = if session_id_taken s uuid
    then (s, Raise IntegrityError)
    else (mkdb (users s)
               (chat_sessions s ++ [ChatSessions.mk uuid user_id now now])
               (messages s) (user_analytics s),
          Ok uuid).
Proof.
  unfold create_chat_session, transaction, bind, insert_chat_sessions, ret.
  destruct (session_id_taken s uuid); reflexivity.
Qed.

Lemma save_message_eq s session_id user_id message_type user_message
    image_path bot_response uuid now :
  save_message s session_id user_id message_type user_message image_path
               bot_response uuid now
  = if message_id_taken s uuid || negb (CHECK_message_type message_type)
    then (s, Raise IntegrityError)
    else (mkdb (users s)
               (map (set_last_activity session_id now) (chat_sessions s))
               (messages s ++ [Messages.mk uuid session_id user_id
                                 message_type user_message image_path
                                 bot_response now])
               (map (record_query user_id message_type now)
                    (user_analytics s)),
          Ok tt).
Proof.
  unfold save_message, transaction, bind, insert_messages,
    update_chat_sessions_last_activity, update_user_analytics.
  destruct (message_id_taken s uuid
            || negb (CHECK_message_type message_type));
    reflexivity.
Qed.

Lemma create_user_changes s u e p r f d uuid salt now :
  db_changes s (fst (create_user hashpw s u e p r f d uuid salt now)).
Proof.
  rewrite create_user_eq.
  destruct (user_id_taken s uuid) eqn:E1; [apply changes_none |].
  destruct (username_taken s u) eqn:E2; [apply changes_none |].
  destruct (email_taken s e) eqn:E3; [apply changes_none |].
  destruct (CHECK_role r) eqn:E4; [| apply changes_none].
  simpl. apply db_change_changes. apply change_create_user; assumption.
Qed.

Lemma register_user_changes s u e p c r f d uuid salt now :
  db_changes s (fst (register_user hashpw s u e p c r f d uuid salt now)).
Proof.
  unfold register_user.
  destruct (validate u e p c f); [apply changes_none |].
  pose proof (create_user_changes s u e p r f d uuid salt now) as H.
  destruct (create_user hashpw s u e p r f d uuid salt now) as [s' [|]];
    exact H.
Qed.

Lemma authenticate_user_changes s u p now :
  db_changes s (fst (authenticate_user checkpw s u p now)).
Proof.
  unfold authenticate_user.
  destruct (select_user s u) as [user|]; [| apply changes_none].
  destruct (Users.is_active user && checkpw p (Users.password_hash user));
    [| apply changes_none].
  apply db_change_changes. apply change_last_login.
Qed.

Lemma create_chat_session_changes s uid uuid now :
  db_changes s (fst (create_chat_session s uid uuid now)).
Proof.
  rewrite create_chat_session_eq.
  destruct (session_id_taken s uuid) eqn:E; [apply changes_none |].
  apply db_change_changes. apply change_create_chat_session. exact E.
Qed.

Lemma save_message_changes s sid uid mt um ip br uuid now :
  db_changes s (fst (save_message s sid uid mt um ip br uuid now)).
Proof.
  rewrite save_message_eq.
  destruct (message_id_taken s uuid) eqn:E1; [apply changes_none |].
  destruct (CHECK_message_type mt) eqn:E2; [| apply changes_none].
  apply db_change_changes. apply change_save_message; assumption.
Qed.

Lemma login_user_changes s ss u p uuid now :
  db_changes s (fst (fst (login_user checkpw s ss u p uuid now))).
Proof.
  unfold login_user.
  destruct (String.eqb u "" || String.eqb p ""); [apply changes_none |].
  pose proof (authenticate_user_changes s u p now) as H1.
  destruct (authenticate_user checkpw s u p now) as [s1 [info|]];
    [| exact H1].
  pose proof (create_chat_session_changes s1 (dict_str info "user_id")
                uuid now) as H2.
  destruct (create_chat_session s1 (dict_str info "user_id") uuid now)
    as [s2 [sid|e]]; exact (db_changes_trans _ _ _ H1 H2).
Qed.

Lemma step_changes s o : db_changes s (step hashpw checkpw s o).
Proof.
  destruct o; simpl.
  - apply create_user_changes.
  - apply register_user_changes.
  - apply authenticate_user_changes.
  - apply login_user_changes.
  - apply create_chat_session_changes.
  - apply save_message_changes.
Qed.

Lemma run_changes ops : forall s, db_changes s (run hashpw checkpw ops s).
Proof.
  induction ops as [|o ops IH]; intros s; simpl.
  - apply changes_none.
  - eapply db_changes_trans; [apply step_changes | apply IH].
Qed.

Lemma reachable_invariant (P : db -> Prop) :
  P empty_db ->
  (forall s s', P s -> db_change s s' -> P s') ->
  forall s, reachable hashpw checkpw s -> P s.
Proof.
  intros H0 Hstep s [ops Hs]. subst s.
  apply (db_changes_invariant P Hstep empty_db); [exact H0 |].
  apply run_changes.
Qed.

(** ** Counters *)

Lemma record_query_user_id uid mt now a :
  UserAnalytics.user_id (record_query uid mt now a) = UserAnalytics.user_id a.
Proof.
  unfold record_query.
  destruct (String.eqb (UserAnalytics.user_id a) uid); reflexivity.
Qed.

Lemma record_query_consistent uid mt now a :
  CHECK_message_type mt = true ->
  consistent a -> consistent (record_query uid mt now a).
Proof.
  unfold CHECK_message_type, record_query, consistent. intros Hmt Ha.
  destruct (String.eqb (UserAnalytics.user_id a) uid); [| exact Ha].
  simpl.
  destruct (String.eqb_spec mt "text") as [E|E].
  - subst mt. simpl. lia.
  - simpl in Hmt. rewrite Hmt. lia.
Qed.

Lemma find_record_query uid u mt now l :
  find (fun a => String.eqb (UserAnalytics.user_id a) uid)
       (map (record_query u mt now) l)
  = option_map (record_query u mt now)
      (find (fun a => String.eqb (UserAnalytics.user_id a) uid) l).
Proof.
  induction l as [|a l IH]; simpl; [reflexivity |].
  rewrite record_query_user_id.
  destruct (String.eqb (UserAnalytics.user_id a) uid); [reflexivity |].
  exact IH.
Qed.

Lemma consistent_change s s' :
  Forall consistent (user_analytics s) -> db_change s s' ->
  Forall consistent (user_analytics s').
Proof.
  intros H Hc. destruct Hc; simpl; try exact H.
  - apply Forall_app. split; [exact H |].
    constructor; [reflexivity | constructor].
  - apply Forall_map. eapply Forall_impl; [| exact H].
    intros a Ha. apply record_query_consistent; assumption.
Qed.

Lemma get_user_analytics_consistent s uid :
  Forall consistent (user_analytics s) ->
  dict_int (get_user_analytics s uid) "total_queries"
  = dict_int (get_user_analytics s uid) "text_queries"
    + dict_int (get_user_analytics s uid) "image_queries".
Proof.
  intros H. unfold get_user_analytics, select_analytics.
  destruct (find _ (user_analytics s)) as [a|] eqn:F; [| reflexivity].
  apply find_some in F. destruct F as [Hin _].
  rewrite Forall_forall in H. apply (H a Hin).
Qed.

(** C2. In every store reached from the empty one by registrations,
    authentications, session starts and appends, every counters row has
    [total_queries = text_queries + image_queries], and so do the counters
    [get_user_analytics] reports for any user id. *)
Theorem counters_consistent (s : db) :
  reachable hashpw checkpw s ->
  Forall consistent (user_analytics s)
  /\ forall uid,
       dict_int (get_user_analytics s uid) "total_queries"
       = dict_int (get_user_analytics s uid) "text_queries"
         + dict_int (get_user_analytics s uid) "image_queries".
Proof.
  intros Hr.
  assert (H : Forall consistent (user_analytics s)).
  { revert s Hr. apply reachable_invariant.
    - constructor.
    - exact consistent_change. }
  split; [exact H |].
  intros uid. apply get_user_analytics_consistent. exact H.
Qed.

Lemma select_analytics_user_id s uid a :
  select_analytics s uid = Some a -> UserAnalytics.user_id a = uid.
Proof.
  unfold select_analytics. intros H. apply find_some in H.
  destruct H as [_ H]. apply String.eqb_eq in H. exact H.
Qed.

Lemma find_app_some {A} (p : A -> bool) (l l' : list A) (a : A) :
  find p l = Some a -> find p (l ++ l') = Some a.
Proof.
  induction l as [|x l IH]; simpl; [discriminate |].
  destruct (p x); [tauto | exact IH].
Qed.

Lemma find_app_none {A} (p : A -> bool) (l l' : list A) :
  find p l = None -> find p (l ++ l') = find p l'.
Proof.
  induction l as [|x l IH]; simpl; [reflexivity |].
  destruct (p x); [discriminate | exact IH].
Qed.

Lemma users_have_counters_change s s' :
  users_have_counters s -> db_change s s' -> users_have_counters s'.
Proof.
  intros H Hc uid'. specialize (H uid').
  destruct Hc; unfold user_id_taken, select_analytics in *; simpl.
  - rewrite existsb_app. simpl. rewrite orb_false_r. intros Ht.
    destruct (find (fun a => String.eqb (UserAnalytics.user_id a) uid')
                   (user_analytics s)) as [a|] eqn:F.
    + rewrite (find_app_some _ _ _ _ F). discriminate.
    + rewrite (find_app_none _ _ _ F). simpl.
      apply orb_true_iff in Ht. destruct Ht as [Ht|Ht].
      * exfalso. apply H; [exact Ht | reflexivity].
      * rewrite Ht. discriminate.
  - intros Ht. apply H. clear H.
    induction (users s) as [|u l IH]; simpl in *; [exact Ht |].
    unfold set_last_login in Ht at 1.
    destruct (String.eqb (Users.user_id u) uid); simpl in Ht;
      destruct (String.eqb (Users.user_id u) uid'); simpl in *;
      try reflexivity; apply IH; exact Ht.
  - exact H.
  - intros Ht. rewrite find_record_query.
    destruct (find _ (user_analytics s)); [discriminate |].
    exfalso. apply (H Ht). reflexivity.
Qed.

Lemma reachable_users_have_counters s :
  reachable hashpw checkpw s -> users_have_counters s.
Proof.
  revert s. apply reachable_invariant.
  - intros uid H. discriminate.
  - exact users_have_counters_change.
Qed.

(** What the operations other than a successful append do to the counters
    table: nothing, or a fresh all-zero row at its end. *)
Lemma create_user_analytics s u e p r f d uuid salt now :
  exists tail,
    user_analytics (fst (create_user hashpw s u e p r f d uuid salt now))
    = (user_analytics s ++ tail)%list.
Proof.
  rewrite create_user_eq.
  destruct (user_id_taken s uuid || username_taken s u || email_taken s e
            || negb (CHECK_role r)); simpl.
  - exists []. rewrite app_nil_r. reflexivity.
  - eexists. reflexivity.
Qed.

Lemma authenticate_user_analytics s u p now :
  user_analytics (fst (authenticate_user checkpw s u p now))
  = user_analytics s.
Proof.
  unfold authenticate_user.
  destruct (select_user s u) as [user|]; [| reflexivity].
  destruct (Users.is_active user && checkpw p (Users.password_hash user));
    reflexivity.
Qed.

Lemma create_chat_session_analytics s uid uuid now :
  user_analytics (fst (create_chat_session s uid uuid now))
  = user_analytics s.
Proof.
  rewrite create_chat_session_eq.
  destruct (session_id_taken s uuid); reflexivity.
Qed.

Lemma step_analytics_tail s o :
  (forall sid u mt um ip br uuid now,
     o <> SaveMessage sid u mt um ip br uuid now) ->
  exists tail,
    user_analytics (step hashpw checkpw s o)
    = (user_analytics s ++ tail)%list.
Proof.
  intros Hno. destruct o; simpl.
  - apply create_user_analytics.
  - unfold register_user. destruct (validate _ _ _ _ _).
    + exists []. rewrite app_nil_r. reflexivity.
    + pose proof (create_user_analytics s username email password role
                    full_name department uuid salt now) as H.
      destruct (create_user hashpw s username email password role full_name
                            department uuid salt now) as [s' [|]]; exact H.
  - exists []. rewrite app_nil_r. apply authenticate_user_analytics.
  - exists []. rewrite app_nil_r. unfold login_user.
    destruct (String.eqb username "" || String.eqb password "");
      [reflexivity |].
    pose proof (authenticate_user_analytics s username password now) as H1.
    destruct (authenticate_user checkpw s username password now)
      as [s1 [info|]]; [| exact H1].
    pose proof (create_chat_session_analytics s1 (dict_str info "user_id")
                  uuid now) as H2.
    destruct (create_chat_session s1 (dict_str info "user_id") uuid now)
      as [s2 [sid|e]]; simpl in *; congruence.
  - exists []. rewrite app_nil_r. apply create_chat_session_analytics.
  - exfalso. eapply Hno. reflexivity.
Qed.

Lemma step_counters s uid o a :
  select_analytics s uid = Some a ->
  exists a',
    select_analytics (step hashpw checkpw s o) uid = Some a'
    /\ UserAnalytics.total_queries a'
       = UserAnalytics.total_queries a + Z.of_nat (op_appends uid s o).
Proof.
  intros Ha.
  assert (Hother :
    (forall sid u mt um ip br uuid now,
       o <> SaveMessage sid u mt um ip br uuid now) ->
    op_appends uid s o = 0%nat ->
    exists a',
      select_analytics (step hashpw checkpw s o) uid = Some a'
      /\ UserAnalytics.total_queries a'
         = UserAnalytics.total_queries a + Z.of_nat (op_appends uid s o)).
  { intros Hno H0. destruct (step_analytics_tail s o Hno) as [tail Ht].
    exists a. unfold select_analytics in *. rewrite Ht, H0.
    split; [apply find_app_some; exact Ha | simpl; lia]. }
  destruct o; try (apply Hother; [intros; discriminate | reflexivity]).
  clear Hother. unfold op_appends. simpl. rewrite save_message_eq.
  destruct (message_id_taken s uuid || negb (CHECK_message_type message_type)).
  - simpl. rewrite andb_false_r. exists a. split; [exact Ha | simpl; lia].
  - unfold select_analytics in *. simpl. rewrite find_record_query, Ha.
    simpl. rewrite andb_true_r. eexists. split; [reflexivity |].
    apply select_analytics_user_id in Ha. unfold record_query.
    rewrite Ha, (String.eqb_sym uid user_id).
    destruct (String.eqb user_id uid); simpl; lia.
Qed.

Lemma run_counters ops : forall s uid a,
  select_analytics s uid = Some a ->
  exists a',
    select_analytics (run hashpw checkpw ops s) uid = Some a'
    /\ UserAnalytics.total_queries a'
       = UserAnalytics.total_queries a
         + Z.of_nat (appended hashpw checkpw uid ops s).
Proof.
  induction ops as [|o ops IH]; intros s uid a Ha; simpl.
  - exists a. split; [exact Ha | lia].
  - destruct (step_counters s uid o a Ha) as [a1 [H1 T1]].
    destruct (IH _ uid a1 H1) as [a2 [H2 T2]].
    exists a2. split; [exact H2 | lia].
Qed.

Lemma get_user_analytics_total s uid a :
  select_analytics s uid = Some a ->
  dict_int (get_user_analytics s uid) "total_queries"
  = UserAnalytics.total_queries a.
Proof. intros H. unfold get_user_analytics. rewrite H. reflexivity. Qed.

(** C3. For a user of a reachable store, every successful [save_message]
    for that user raises the reported [total_queries] by exactly 1, raises
    the counter of the message's type by exactly 1, leaves the other type's
    counter as it was and sets [last_query_date] to the time of the call;
    and over any run of operations the user's [total_queries] grows by
    exactly the number of messages the run appended for the user. *)
Theorem append_counts (s : db) (uid : string) :
  reachable hashpw checkpw s ->
  user_id_taken s uid = true ->
  (forall sid mt um ip br uuid now s',
     save_message s sid uid mt um ip br uuid now = (s', Ok tt) ->
     let before := get_user_analytics s uid in
     let after := get_user_analytics s' uid in
     dict_int after "total_queries" = dict_int before "total_queries" + 1
     /\ (mt = "text"
         /\ dict_int after "text_queries" = dict_int before "text_queries" + 1
         /\ dict_int after "image_queries" = dict_int before "image_queries"
         \/
         mt = "image"
         /\ dict_int after "image_queries"
            = dict_int before "image_queries" + 1
         /\ dict_int after "text_queries" = dict_int before "text_queries")
     /\ dict_get after "last_query_date" = Some (VTime now))
  /\ (forall ops,
        dict_int (get_user_analytics (run hashpw checkpw ops s) uid)
                 "total_queries"
        = dict_int (get_user_analytics s uid) "total_queries"
          + Z.of_nat (appended hashpw checkpw uid ops s)).
Proof.
  intros Hr Hu.
  pose proof (reachable_users_have_counters s Hr uid Hu) as Hsome.
  destruct (select_analytics s uid) as [a|] eqn:Ha; [clear Hsome | congruence].
  split.
  - intros sid mt um ip br uuid now s' Hsave.
    rewrite save_message_eq in Hsave.
    destruct (message_id_taken s uuid); [discriminate |].
    destruct (CHECK_message_type mt) eqn:Hmt; [| discriminate].
    simpl in Hsave. inversion Hsave; subst s'; clear Hsave.
    unfold get_user_analytics. rewrite Ha.
    unfold select_analytics in *. simpl. rewrite find_record_query, Ha.
    simpl. pose proof (select_analytics_user_id s uid a Ha) as Hid.
    unfold record_query. rewrite Hid, String.eqb_refl.
    unfold dict_int. simpl.
    split; [reflexivity |]. split; [| reflexivity].
    unfold CHECK_message_type in Hmt.
    destruct (String.eqb_spec mt "text") as [E|E].
    + left. subst mt. simpl. repeat split; lia.
    + simpl in Hmt. apply String.eqb_eq in Hmt. right. subst mt. simpl.
      repeat split; lia.
  - intros ops.
    destruct (run_counters ops s uid a Ha) as [a' [Ha' Ht]].
    rewrite (get_user_analytics_total _ _ _ Ha').
    rewrite (get_user_analytics_total _ _ _ Ha). exact Ht.
Qed.

(** ** Appending a message *)

(** C1, as the specification words it, fails: with alice's session S1
    registered, a text message whose user message is empty or missing and an
    image message whose response is empty are both stored. *)
Lemma save_message_empty_input_counterexample :
  session_id_taken session_db "S1" = true
  /\ snd (save_message session_db "S1" "u-1" "text" (Some "") None "X is..."
                       "m-1" 103) = Ok tt
  /\ snd (save_message session_db "S1" "u-1" "text" None None "X is..."
                       "m-1" 103) = Ok tt
  /\ save_message session_db "S1" "u-1" "image" None (Some "diagram.png") ""
                  "m-1" 103
     = (mkdb (users session_db)
             [ChatSessions.mk "S1" "u-1" 102 103]
             [Messages.mk "m-1" "S1" "u-1" "image" None (Some "diagram.png")
                          "" 103]
             [UserAnalytics.mk "u-1" 1 0 1 (Some 103)],
        Ok tt).
Proof. repeat split. Qed.

(** C1, as the code has it.  [save_message] fails only with the
    IntegrityError of the messages table (the message id is taken or the
    type is neither text nor image), never for an empty user message or
    response, and a failed call leaves the whole store as it was.  For a
    registered session a call that succeeds has appended the message row,
    set the session's last activity and recorded the query in the counters,
    all three; the user rows are untouched. *)
Theorem save_message_all_or_nothing (s : db) (sid uid mt : string)
    (um ip : option string) (br uuid : string) (now : datetime) :
  (forall e, snd (save_message s sid uid mt um ip br uuid now) = Raise e ->
             fst (save_message s sid uid mt um ip br uuid now) = s)
  /\ (forall um' ip' br',
        snd (save_message s sid uid mt um' ip' br' uuid now)
        = snd (save_message s sid uid mt um ip br uuid now))
  /\ (session_id_taken s sid = true ->
      (snd (save_message s sid uid mt um ip br uuid now) = Ok tt
       <-> message_id_taken s uuid = false /\ CHECK_message_type mt = true)
      /\ (snd (save_message s sid uid mt um ip br uuid now) = Ok tt ->
          let s' := fst (save_message s sid uid mt um ip br uuid now) in
          messages s'
          = (messages s ++ [Messages.mk uuid sid uid mt um ip br now])%list
          /\ chat_sessions s'
             = map (set_last_activity sid now) (chat_sessions s)
          /\ user_analytics s'
             = map (record_query uid mt now) (user_analytics s)
          /\ users s' = users s)).
Proof.
  clear hashpw checkpw.
  split; [| split].
  - intros e. rewrite save_message_eq.
    destruct (message_id_taken s uuid || negb (CHECK_message_type mt));
      [reflexivity | discriminate].
  - intros um' ip' br'. rewrite !save_message_eq.
    destruct (message_id_taken s uuid || negb (CHECK_message_type mt));
      reflexivity.
  - intros _. rewrite save_message_eq.
    destruct (message_id_taken s uuid), (CHECK_message_type mt); simpl;
      (split; [split; [intros H; try discriminate; tauto
                      | intros [H1 H2]; try discriminate; reflexivity]
              | intros H; try discriminate; repeat split]).
Qed.

(** ** Starting a session *)

(** [create_chat_session] with an id no session carries yet returns that id
    and appends one session row. *)
Lemma create_chat_session_fresh_id s uid uuid now :
  session_id_taken s uuid = false ->
  create_chat_session s uid uuid now
  = (mkdb (users s) (chat_sessions s ++ [ChatSessions.mk uuid uid now now])
          (messages s) (user_analytics s),
     Ok uuid)
  /\ ~ In uuid (map ChatSessions.session_id (chat_sessions s)).
Proof.
  intros H. rewrite create_chat_session_eq, H. split; [reflexivity |].
  intros Hin. apply in_map_iff in Hin. destruct Hin as [c [Hc Hin]].
  unfold session_id_taken in H.
  assert (existsb (fun c => String.eqb (ChatSessions.session_id c) uuid)
                  (chat_sessions s) = true) as Ht.
  { apply existsb_exists. exists c. split; [exact Hin |].
    apply String.eqb_eq. exact Hc. }
  congruence.
Qed.

(** C9: the code at a user id no user has.  On the empty store
    [create_chat_session] for the id ghost commits a session row and
    returns its id. *)
Theorem create_chat_session_unknown_user :
  user_id_taken empty_db "ghost" = false
  /\ create_chat_session empty_db "ghost" "S1" 100
     = (mkdb [] [ChatSessions.mk "S1" "ghost" 100 100] [] [], Ok "S1").
Proof. split; reflexivity. Qed.

(** ** Registration *)








(** ** Authentication *)





Lemma forget_set_last_login uid now u :
  forget_login (set_last_login uid now u) = forget_login u.
Proof.
  unfold set_last_login.
  destruct (String.eqb (Users.user_id u) uid); reflexivity.
Qed.

Lemma find_set_last_login name uid now l :
  find (fun u => String.eqb (Users.username u) name)
       (map (set_last_login uid now) l)
  = option_map (set_last_login uid now)
      (find (fun u => String.eqb (Users.username u) name) l).
Proof.
  induction l as [|u l IH]; simpl; [reflexivity |].
  replace (Users.username (set_last_login uid now u))
    with (Users.username u)
    by (unfold set_last_login;
        destruct (String.eqb (Users.user_id u) uid); reflexivity).
  destruct (String.eqb (Users.username u) name); [reflexivity | exact IH].
Qed.

Lemma account_change s s' name a :
  account s name = Some a -> db_change s s' -> account s' name = Some a.
Proof.
  unfold account, select_user. intros Ha Hc. destruct Hc; simpl; try exact Ha.
  - destruct (find _ (users s)) as [u|] eqn:F; [| discriminate].
    rewrite (find_app_some _ _ _ _ F). exact Ha.
  - rewrite find_set_last_login.
    destruct (find _ (users s)) as [u|]; [| discriminate].
    simpl in *. rewrite forget_set_last_login. exact Ha.
Qed.

Lemma account_run ops s name a :
  account s name = Some a ->
  account (run hashpw checkpw ops s) name = Some a.
Proof.
  intros Ha.
  apply (db_changes_invariant (fun s' => account s' name = Some a))
    with (s := s); [| exact Ha | apply run_changes].
  intros x y Hx Hc. apply (account_change x y name a Hx Hc).
Qed.

Lemma authenticate_account s name p now a :
  account s name = Some a ->
  Users.is_active a = true ->
  checkpw p (Users.password_hash a) = true ->
  snd (authenticate_user checkpw s name p now) = Some (user_info a).
Proof.
  unfold account, authenticate_user. intros Ha Hact Hpw.
  destruct (select_user s name) as [u|]; [| discriminate].
  simpl in Ha. inversion Ha; subst a; clear Ha. simpl in Hact, Hpw.
  rewrite Hact, Hpw. reflexivity.
Qed.

Lemma register_user_account s u e p c r f d uuid salt now s' msg :
  register_user hashpw s u e p c r f d uuid salt now = (s', (true, msg)) ->
  account s' u
  = Some (Users.mk uuid u e (hashpw p salt) r f d now None true).
Proof.
  unfold register_user.
  destruct (validate u e p c f); [discriminate |].
  rewrite create_user_eq.
  destruct (user_id_taken s uuid); [discriminate |].
  destruct (username_taken s u) eqn:Hname; [discriminate |].
  destruct (email_taken s e); [discriminate |].
  destruct (CHECK_role r); [| discriminate].
  simpl. intros H. inversion H; subst s'; clear H.
  unfold account, select_user. simpl.
  rewrite find_app_none.
  - simpl. rewrite String.eqb_refl. reflexivity.
  - unfold username_taken in Hname.
    destruct (find _ (users s)) as [x|] eqn:F; [| reflexivity].
    apply find_some in F.
    assert (existsb (fun u0 => String.eqb (Users.username u0) u) (users s)
            = true) as Ht by (apply existsb_exists; exists x; exact F).
    congruence.
Qed.

(** C8. After a registration that succeeds, and whatever the store does
    next, [authenticate_user] with the same username and password succeeds
    (bcrypt accepting the password against the hash it made of it), and
    what it returns is the dict of user id, username, email, role, full
    name and department of the registration: six keys, none of them the
    password hash. *)
Theorem register_then_authenticate (s s' : db)
    (username email password confirm_password role full_name : string)
    (department : option string) (uuid salt : string) (now : datetime)
    (msg : string) (ops : list op) (now' : datetime) :
  checkpw password (hashpw password salt) = true ->
  register_user hashpw s username email password confirm_password role
                full_name department uuid salt now = (s', (true, msg)) ->
  exists info,
    snd (authenticate_user checkpw (run hashpw checkpw ops s') username
                           password now') = Some info
    /\ info = [ ("user_id", VStr uuid); ("username", VStr username);
                ("email", VStr email); ("role", VStr role);
                ("full_name", VStr full_name);
                ("department", opt_str department) ]
    /\ ~ In "password_hash" (keys info).
Proof.
  intros Hpw Hreg. eexists. split; [| split; [reflexivity |]].
  - apply register_user_account in Hreg.
    apply (account_run ops) in Hreg.
    rewrite (authenticate_account _ _ password now' _ Hreg);
      [reflexivity | reflexivity | exact Hpw].
  - simpl. intros H.
    repeat (destruct H as [H|H]; [discriminate |]). exact H.
Qed.

End StoreFacts.

(** ** The properties at concrete stores *)

Example history_of_a_burst :
  map (fun d => dict_get d "user_message") (get_chat_history burst_db "u-1" 50)
  = [Some (VStr "third"); Some (VStr "first"); Some (VStr "second")]
  /\ map (fun d => dict_get d "user_message")
         (get_chat_history burst_db "u-1" 2)
     = [Some (VStr "third"); Some (VStr "first")].
Proof. split; reflexivity. Qed.

Example snapshot_of_mixed_db :
  map (fun d => (dict_str d "username", dict_int d "total_queries"))
      (get_all_users_analytics mixed_db)
  = [("bob", 5); ("alice", 2)].
Proof. reflexivity. Qed.

Example usernames_are_case_sensitive :
  fst (snd (register_user toy_hashpw scenario_db "Alice" "alice2@x.edu"
                          "password1" "password1" "student" "Alice A" None
                          "u-2" "salt" 200)) = true.
Proof. reflexivity. Qed.

Lemma scenario_db_reachable : reachable toy_hashpw toy_checkpw scenario_db.
Proof. exists scenario. reflexivity. Defined.

Lemma save_message_all_or_nothing_witness :
  session_id_taken session_db "S1" = true
  /\ (snd (save_message session_db "S1" "u-1" "text" (Some "explain X") None
                        "X is..." "m-1" 103) = Ok tt
      <-> message_id_taken session_db "m-1" = false
          /\ CHECK_message_type "text" = true).
Proof.
  split; [reflexivity |].
  apply (save_message_all_or_nothing session_db "S1" "u-1" "text"
           (Some "explain X") None "X is..." "m-1" 103).
  reflexivity.
Defined.

Lemma counters_consistent_witness :
  reachable toy_hashpw toy_checkpw scenario_db
  /\ Forall consistent (user_analytics scenario_db).
Proof.
  split; [exact scenario_db_reachable |].
  apply (counters_consistent toy_hashpw toy_checkpw scenario_db).
  exact scenario_db_reachable.
Defined.

Lemma append_counts_witness :
  reachable toy_hashpw toy_checkpw session_db
  /\ user_id_taken session_db "u-1" = true
  /\ dict_int (get_user_analytics
                 (run toy_hashpw toy_checkpw (skipn 3 scenario) session_db)
                 "u-1") "total_queries"
     = dict_int (get_user_analytics session_db "u-1") "total_queries"
       + Z.of_nat (appended toy_hashpw toy_checkpw "u-1" (skipn 3 scenario)
                            session_db).
Proof.
  assert (Hr : reachable toy_hashpw toy_checkpw session_db)
    by (exists (firstn 3 scenario); reflexivity).
  split; [exact Hr |]. split; [reflexivity |].
  apply (append_counts toy_hashpw toy_checkpw session_db "u-1" Hr).
  reflexivity.
Defined.

Lemma platform_snapshot_active_by_total_witness :
  counters_nonneg mixed_db
  /\ StronglySorted total_desc (get_all_users_analytics mixed_db).
Proof.
  assert (H : counters_nonneg mixed_db).
  { unfold counters_nonneg. simpl.
    repeat (constructor; [simpl; lia |]). constructor. }
  split; [exact H |].
  apply (platform_snapshot_active_by_total mixed_db). exact H.
Defined.




Lemma register_then_authenticate_witness :
  toy_checkpw "password1" (toy_hashpw "password1" "salt") = true
  /\ exists info,
       snd (authenticate_user toy_checkpw
              (run toy_hashpw toy_checkpw (skipn 1 scenario)
                   (step toy_hashpw toy_checkpw empty_db
                         (hd (AuthenticateUser "" "" 0) scenario)))
              "alice" "password1" 200) = Some info
       /\ info = [ ("user_id", VStr "u-1"); ("username", VStr "alice");
                   ("email", VStr "alice@x.edu"); ("role", VStr "student");
                   ("full_name", VStr "Alice A"); ("department", VNone) ]
       /\ ~ In "password_hash" (keys info).
Proof.
  split; [reflexivity |].
  apply (register_then_authenticate toy_hashpw toy_checkpw empty_db _
           "alice" "alice@x.edu" "password1" "password1" "student" "Alice A"
           None "u-1" "salt" 100 "Registration successful! Please log in."
           (skipn 1 scenario) 200);
    reflexivity.
Defined.


(** * Further properties of the store *)

(** ** The constraints hold in every reachable store *)

Lemma map_key_preserved {A B} (f : A -> B) (g : A -> A) (l : list A) :
  (forall x, f (g x) = f x) -> map f (map g l) = map f l.
Proof.
  intros H. rewrite map_map. apply map_ext. exact H.
Qed.

Lemma NoDup_key_snoc {A} (f : A -> string) (l : list A) (x : A) :
  NoDup (map f l) ->
  existsb (fun c => String.eqb (f c) (f x)) l = false ->
  NoDup (map f (l ++ [x])).
Proof.
  intros Hnd Hfresh. rewrite map_app. simpl.
  apply NoDup_rev in Hnd. rewrite <- (rev_involutive (_ ++ _)).
  apply NoDup_rev. rewrite rev_app_distr. simpl.
  constructor; [| exact Hnd].
  rewrite <- in_rev. intros Hin. apply in_map_iff in Hin.
  destruct Hin as [c [Hc Hin]].
  assert (existsb (fun c => String.eqb (f c) (f x)) l = true) as Ht.
  { apply existsb_exists. exists c. split; [exact Hin |].
    apply String.eqb_eq. exact Hc. }
  congruence.
Qed.

Lemma set_last_login_user_id uid now u :
  Users.user_id (set_last_login uid now u) = Users.user_id u.
Proof.
  unfold set_last_login.
  destruct (String.eqb (Users.user_id u) uid); reflexivity.
Qed.

Lemma set_last_login_username uid now u :
  Users.username (set_last_login uid now u) = Users.username u.
Proof.
  unfold set_last_login.
  destruct (String.eqb (Users.user_id u) uid); reflexivity.
Qed.

Lemma set_last_login_email uid now u :
  Users.email (set_last_login uid now u) = Users.email u.
Proof.
  unfold set_last_login.
  destruct (String.eqb (Users.user_id u) uid); reflexivity.
Qed.

Lemma set_last_login_is_active uid now u :
  Users.is_active (set_last_login uid now u) = Users.is_active u.
Proof.
  unfold set_last_login.
  destruct (String.eqb (Users.user_id u) uid); reflexivity.
Qed.

Lemma set_last_activity_session_id sid now c :
  ChatSessions.session_id (set_last_activity sid now c)
  = ChatSessions.session_id c.
Proof.
  unfold set_last_activity.
  destruct (String.eqb (ChatSessions.session_id c) sid); reflexivity.
Qed.

Lemma unique_keys_change s s' :
  unique_keys s -> db_change s s' -> unique_keys s'.
Proof.
  unfold unique_keys. intros [Hi [Hn [He [Hs Hm]]]] Hc.
  destruct Hc; simpl.
  - repeat split; try assumption;
      apply NoDup_key_snoc; assumption.
  - rewrite (map_key_preserved Users.user_id),
            (map_key_preserved Users.username),
            (map_key_preserved Users.email).
    + repeat split; assumption.
    + apply set_last_login_email.
    + apply set_last_login_username.
    + apply set_last_login_user_id.
  - repeat split; try assumption.
    apply NoDup_key_snoc; assumption.
  - rewrite (map_key_preserved ChatSessions.session_id);
      [| apply set_last_activity_session_id].
    repeat split; try assumption.
    apply NoDup_key_snoc; assumption.
Qed.

Lemma counters_match_users_change s s' :
  counters_match_users s -> db_change s s' -> counters_match_users s'.
Proof.
  unfold counters_match_users. intros H Hc. destruct Hc; simpl.
  - rewrite !map_app, H. reflexivity.
  - rewrite (map_key_preserved Users.user_id);
      [exact H | apply set_last_login_user_id].
  - exact H.
  - rewrite (map_key_preserved UserAnalytics.user_id); [exact H |].
    intros a. apply record_query_user_id.
Qed.

Lemma all_active_change s s' :
  Forall (fun u => Users.is_active u = true) (users s) ->
  db_change s s' ->
  Forall (fun u => Users.is_active u = true) (users s').
Proof.
  intros H Hc. destruct Hc; simpl; try exact H.
  - apply Forall_app. split; [exact H |]. constructor; [reflexivity |].
    constructor.
  - apply Forall_map. eapply Forall_impl; [| exact H].
    intros u Hu. rewrite set_last_login_is_active. exact Hu.
Qed.

Section StoreInvariants.
#[local] Set Default Proof Using "Type".
Variable hashpw : string -> string -> string.
Variable checkpw : string -> string -> bool.

Lemma unique_keys_reachable (s : db) :
  reachable hashpw checkpw s -> unique_keys s.
Proof.
  revert s. apply reachable_invariant.
  - unfold unique_keys. simpl. repeat split; constructor.
  - exact unique_keys_change.
Qed.

Lemma counters_match_users_reachable (s : db) :
  reachable hashpw checkpw s -> counters_match_users s.
Proof.
  revert s. apply reachable_invariant.
  - reflexivity.
  - exact counters_match_users_change.
Qed.

Lemma find_unique_key {A} (f : A -> string) (l : list A) (x : A) :
  NoDup (map f l) -> In x l ->
  find (fun y => String.eqb (f y) (f x)) l = Some x.
Proof.
  induction l as [|y l IH]; simpl; intros Hnd Hin; [contradiction |].
  inversion Hnd as [|? ? Hnotin Hnd']; subst.
  destruct Hin as [Hin|Hin].
  - subst y. rewrite String.eqb_refl. reflexivity.
  - destruct (String.eqb_spec (f y) (f x)) as [E|E].
    + exfalso. apply Hnotin. rewrite E. apply in_map. exact Hin.
    + apply IH; assumption.
Qed.

(** X1. In every reachable store the UNIQUE constraints of the schema hold
    (no two users share a user id, a username or an email, no two sessions
    a session id, no two messages a message id), so the lookup by username
    finds every stored user: it returns that very row. *)
Theorem reachable_unique_keys (s : db) :
  reachable hashpw checkpw s ->
  unique_keys s
  /\ forall user, In user (users s) ->
                  select_user s (Users.username user) = Some user.
Proof.
  intros Hr. pose proof (unique_keys_reachable s Hr) as Hu.
  split; [exact Hu |].
  intros user Hin. unfold select_user.
  destruct Hu as [_ [Hn _]].
  apply (find_unique_key Users.username); assumption.
Qed.

Lemma reachable_all_active (s : db) :
  reachable hashpw checkpw s ->
  Forall (fun u => Users.is_active u = true) (users s).
Proof.
  revert s. apply reachable_invariant.
  - constructor.
  - exact all_active_change.
Qed.

(** ** The platform snapshot of a reachable store *)

Lemma filter_all {A} (p : A -> bool) (l : list A) :
  Forall (fun x => p x = true) l -> filter p l = l.
Proof.
  induction 1 as [|x l Hx _ IH]; simpl; [reflexivity |].
  rewrite Hx, IH. reflexivity.
Qed.

Lemma own_counters_row (s : db) (u : Users.row) :
  unique_keys s -> counters_match_users s -> In u (users s) ->
  exists a, left_join_analytics s u = [(u, Some a)]
            /\ In a (user_analytics s)
            /\ UserAnalytics.user_id a = Users.user_id u.
Proof.
  intros [Hid _] Hm Hin. unfold left_join_analytics.
  assert (Hlen :
    List.length (filter (fun a => String.eqb (Users.user_id u)
                                             (UserAnalytics.user_id a))
                        (user_analytics s)) = 1%nat).
  { rewrite (filter_ext _ (fun a => String.eqb (UserAnalytics.user_id a)
                                               (Users.user_id u)))
      by (intros a; apply String.eqb_sym).
    rewrite filter_unique_key by (rewrite Hm; exact Hid).
    replace (existsb _ (user_analytics s)) with true; [reflexivity |].
    symmetry. apply (in_map Users.user_id) in Hin. rewrite <- Hm in Hin.
    apply in_map_iff in Hin. destruct Hin as [a [Ha Hin]].
    apply existsb_exists. exists a. split; [exact Hin |].
    apply String.eqb_eq. exact Ha. }
  destruct (filter _ (user_analytics s)) as [|a [|a' l]] eqn:F;
    simpl in Hlen; try discriminate.
  exists a. split; [reflexivity |].
  assert (In a (filter (fun a => String.eqb (Users.user_id u)
                                            (UserAnalytics.user_id a))
                       (user_analytics s))) as Ha
    by (rewrite F; left; reflexivity).
  apply filter_In in Ha. destruct Ha as [Ha Hid'].
  apply String.eqb_eq in Hid'. split; [exact Ha | symmetry; exact Hid'].
Qed.

(** X2. In every reachable store the counters table lists the users, row
    for row: every user has exactly one counters row, and it is the row
    [get_user_analytics] reads for the user's id. *)
Theorem reachable_one_counters_row_per_user (s : db) :
  reachable hashpw checkpw s ->
  counters_match_users s
  /\ forall u, In u (users s) ->
       exists a,
         filter (fun a => String.eqb (UserAnalytics.user_id a)
                                     (Users.user_id u))
                (user_analytics s) = [a]
         /\ select_analytics s (Users.user_id u) = Some a.
Proof.
  intros Hr.
  pose proof (unique_keys_reachable s Hr) as Hu.
  pose proof (counters_match_users_reachable s Hr) as Hm.
  split; [exact Hm |]. intros u Hin.
  destruct (own_counters_row s u Hu Hm Hin) as [a [Hj [Ha Hid]]].
  exists a. split.
  - unfold left_join_analytics in Hj.
    rewrite (filter_ext _ (fun a => String.eqb (Users.user_id u)
                                               (UserAnalytics.user_id a)))
      by (intros x; apply String.eqb_sym).
    destruct (filter _ (user_analytics s)) as [|a1 [|a2 l]];
      simpl in Hj; inversion Hj; reflexivity.
  - unfold select_analytics. rewrite <- Hid.
    apply (find_unique_key UserAnalytics.user_id); [| exact Ha].
    rewrite Hm. destruct Hu as [Hi _]. exact Hi.
Qed.

Lemma platform_join_one_each (s : db) (l : list Users.row) :
  unique_keys s -> counters_match_users s ->
  (forall u, In u l -> In u (users s)) ->
  map fst (flat_map (left_join_analytics s) l) = l.
Proof.
  intros Hu Hm. induction l as [|u l IH]; simpl; intros Hl; [reflexivity |].
  destruct (own_counters_row s u Hu Hm (Hl u (or_introl eq_refl)))
    as [a [Ha _]].
  rewrite Ha. simpl. rewrite IH; [reflexivity |].
  intros u' Hu'. apply Hl. right. exact Hu'.
Qed.

Lemma platform_rows_users_reachable (s : db) :
  reachable hashpw checkpw s ->
  Permutation (map fst (platform_rows s)) (users s).
Proof.
  intros Hr.
  assert (Hjoin : map fst (platform_join s) = users s).
  { unfold platform_join.
    rewrite (filter_all _ _ (reachable_all_active s Hr)).
    apply platform_join_one_each;
      [apply unique_keys_reachable | apply counters_match_users_reachable
       | auto]; exact Hr. }
  rewrite <- Hjoin. apply Permutation_map. apply order_by_desc_perm.
Qed.

(** X3. No operation deactivates a user, and in every reachable store the
    platform snapshot lists every user exactly once, each joined with the
    user's own counters row (never with NULL counters). *)
Theorem reachable_snapshot_lists_every_user (s : db) :
  reachable hashpw checkpw s ->
  Forall (fun u => Users.is_active u = true) (users s)
  /\ Permutation (map fst (platform_rows s)) (users s)
  /\ Forall (fun r => exists a, snd r = Some a
                                /\ In a (user_analytics s)
                                /\ UserAnalytics.user_id a
                                   = Users.user_id (fst r))
            (platform_rows s)
  /\ List.length (get_all_users_analytics s) = List.length (users s).
Proof.
  intros Hr.
  pose proof (unique_keys_reachable s Hr) as Hu.
  pose proof (counters_match_users_reachable s Hr) as Hm.
  pose proof (platform_rows_users_reachable s Hr) as Hperm.
  split; [exact (reachable_all_active s Hr) |].
  split; [exact Hperm |]. split.
  - apply Forall_forall. intros r Hin.
    apply (Permutation_in _ (order_by_desc_perm null_ltb ua_total _)) in Hin.
    unfold platform_join in Hin. apply in_flat_map in Hin.
    destruct Hin as [u [Hin Hr']]. apply filter_In in Hin.
    destruct (own_counters_row s u Hu Hm (proj1 Hin)) as [a [Ha [Hia Hid]]].
    rewrite Ha in Hr'. destruct Hr' as [Hr'|[]]. subst r.
    exists a. auto.
  - unfold get_all_users_analytics. rewrite length_map.
    rewrite <- (length_map fst). apply Permutation_length. exact Hperm.
Qed.

(** X4. In a reachable store [get_user_analytics] for an id no user has
    returns the all-zero counters with no last query date. *)
Theorem unknown_user_has_zero_counters (s : db) (uid : string) :
  reachable hashpw checkpw s ->
  user_id_taken s uid = false ->
  get_user_analytics s uid
  = [ ("total_queries", VInt 0); ("text_queries", VInt 0);
      ("image_queries", VInt 0); ("last_query_date", VNone) ].
Proof.
  intros Hr Hno. unfold get_user_analytics, select_analytics.
  destruct (find _ (user_analytics s)) as [a|] eqn:F; [| reflexivity].
  exfalso. apply find_some in F. destruct F as [Hin Ha].
  apply String.eqb_eq in Ha.
  apply (in_map UserAnalytics.user_id) in Hin.
  rewrite (counters_match_users_reachable s Hr) in Hin.
  apply in_map_iff in Hin. destruct Hin as [u [Hu Hin]].
  assert (user_id_taken s uid = true) as Ht.
  { unfold user_id_taken. apply existsb_exists. exists u.
    split; [exact Hin |]. apply String.eqb_eq. congruence. }
  congruence.
Qed.

(** ** Nothing is lost, counters only grow *)

Lemma extends_refl s : extends s s.
Proof.
  unfold extends. repeat split; exists []; rewrite app_nil_r; reflexivity.
Qed.

Lemma extends_change s0 s s' :
  extends s0 s -> db_change s s' -> extends s0 s'.
Proof.
  unfold extends. intros [[tm Hm] [[tu Hu] [ts Hs]]] Hc.
  destruct Hc; simpl.
  - split; [exists tm; exact Hm |]. split; [| exists ts; exact Hs].
    eexists. rewrite map_app, Hu, <- app_assoc. reflexivity.
  - split; [exists tm; exact Hm |]. split; [| exists ts; exact Hs].
    exists tu. rewrite <- Hu, map_map. apply map_ext.
    intros u. apply forget_set_last_login.
  - split; [exists tm; exact Hm |]. split; [exists tu; exact Hu |].
    eexists. rewrite map_app, Hs, <- app_assoc. reflexivity.
  - split; [| split; [exists tu; exact Hu |]].
    + eexists. rewrite Hm, <- app_assoc. reflexivity.
    + exists ts. rewrite <- Hs, map_map. apply map_ext.
      intros c. unfold set_last_activity, forget_activity.
      destruct (String.eqb (ChatSessions.session_id c) sid); reflexivity.
Qed.

(** X5. Whatever operations run, nothing stored is lost: the message
    ledger only grows at its end (no message is changed or removed), user
    rows are kept in place and change in [last_login] only, session rows
    are kept in place and change in [last_activity] only. *)
Theorem run_extends (ops : list op) (s : db) :
  extends s (run hashpw checkpw ops s).
Proof.
  apply (db_changes_invariant (extends s)) with (s := s).
  - intros x y. apply extends_change.
  - apply extends_refl.
  - apply run_changes.
Qed.

Lemma counters_le_refl d : counters_le d d.
Proof. unfold counters_le. lia. Qed.

Lemma counters_le_trans d1 d2 d3 :
  counters_le d1 d2 -> counters_le d2 d3 -> counters_le d1 d3.
Proof. unfold counters_le. lia. Qed.

Lemma counters_le_change s s' uid :
  db_change s s' ->
  counters_le (get_user_analytics s uid) (get_user_analytics s' uid).
Proof.
  intros Hc. unfold get_user_analytics, select_analytics.
  destruct Hc; simpl; try apply counters_le_refl.
  - destruct (find _ (user_analytics s)) as [a|] eqn:F.
    + rewrite (find_app_some _ _ _ _ F). apply counters_le_refl.
    + rewrite (find_app_none _ _ _ F). simpl.
      destruct (String.eqb uid0 uid); apply counters_le_refl.
  - rewrite find_record_query.
    destruct (find _ (user_analytics s)) as [a|];
      [| apply counters_le_refl].
    simpl. unfold record_query, counters_le, dict_int.
    destruct (String.eqb (UserAnalytics.user_id a) uid0); simpl;
      destruct (String.eqb mtype "text"), (String.eqb mtype "image"); lia.
Qed.

(** X6. Counters never go down: over any run of operations, from any
    store, the total, text and image counts [get_user_analytics] reports
    for a user id are at least what they were. *)
Theorem counters_never_decrease (ops : list op) (s : db) (uid : string) :
  counters_le (get_user_analytics s uid)
              (get_user_analytics (run hashpw checkpw ops s) uid).
Proof.
  apply (db_changes_invariant
           (fun s' => counters_le (get_user_analytics s uid)
                                  (get_user_analytics s' uid)))
    with (s := s).
  - intros x y Hx Hc. eapply counters_le_trans; [exact Hx |].
    apply counters_le_change. exact Hc.
  - apply counters_le_refl.
  - apply run_changes.
Qed.

Lemma count_messages_snoc s s' m uid p :
  messages s' = (messages s ++ [m])%list ->
  count_messages s' uid p
  = count_messages s uid p
    + (if String.eqb (Messages.user_id m) uid && p m then 1 else 0).
Proof.
  intros H. unfold count_messages. rewrite H, filter_app, length_app. simpl.
  destruct (String.eqb (Messages.user_id m) uid && p m); simpl; lia.
Qed.

Lemma in_step_change s0 s s' uid :
  in_step s0 s uid -> db_change s s' -> in_step s0 s' uid.
Proof.
  intros [a0 [a [H0 [Ha [Ht [Hx Hi]]]]]] Hc.
  unfold in_step. exists a0.
  destruct Hc.
  - exists a. split; [exact H0 |]. split; [| auto].
    unfold select_analytics in *. simpl. apply find_app_some. exact Ha.
  - exists a. auto.
  - exists a. auto.
  - exists (record_query uid0 mtype now a). split; [exact H0 |]. split.
    { unfold select_analytics in *. simpl.
      rewrite find_record_query, Ha. reflexivity. }
    set (m := Messages.mk mid sid uid0 mtype umsg ipath resp now).
    rewrite (count_messages_snoc s _ m uid (fun _ => true)),
            (count_messages_snoc s _ m uid (of_type "text")),
            (count_messages_snoc s _ m uid (of_type "image"))
      by reflexivity.
    subst m.
    pose proof (select_analytics_user_id s uid a Ha) as Hid.
    unfold record_query. unfold of_type in *. simpl. rewrite Hid.
    rewrite (String.eqb_sym uid uid0).
    destruct (String.eqb uid0 uid); simpl;
      [| repeat split; lia].
    destruct (String.eqb mtype "text"), (String.eqb mtype "image");
      repeat split; lia.
Qed.

(** X7. Counters and ledger move in step: for a user with a counters row,
    over any run of operations the total, text and image counters grow by
    exactly the number of messages, text messages and image messages the
    ledger gains for that user. *)
Theorem counters_follow_ledger (ops : list op) (s : db) (uid : string) :
  select_analytics s uid <> None ->
  in_step s (run hashpw checkpw ops s) uid.
Proof.
  intros Hsome.
  destruct (select_analytics s uid) as [a|] eqn:Ha; [| congruence].
  apply (db_changes_invariant (fun s' => in_step s s' uid)) with (s := s).
  - intros x y Hx Hc. apply (in_step_change s x y uid Hx Hc).
  - exists a, a. rewrite Ha. repeat split; lia.
  - apply run_changes.
Qed.

(** ** History after an append *)

Lemma join_ignores_last_activity {B} (b : B) sid now x cs :
  map (fun _ => b)
      (filter (fun c => String.eqb (ChatSessions.session_id c) x)
              (map (set_last_activity sid now) cs))
  = map (fun _ => b)
        (filter (fun c => String.eqb (ChatSessions.session_id c) x) cs).
Proof.
  induction cs as [|c cs IH]; simpl; [reflexivity |].
  rewrite set_last_activity_session_id.
  destruct (String.eqb (ChatSessions.session_id c) x); simpl;
    rewrite IH; reflexivity.
Qed.

(** The join after a successful append: the old join, then the new message
    once per session row carrying its session id. *)
Lemma history_join_append s sid uid0 mt um ip br uuid now s' uid :
  save_message s sid uid0 mt um ip br uuid now = (s', Ok tt) ->
  history_join s' uid
  = (history_join s uid
     ++ (if String.eqb uid0 uid
         then map (fun _ => Messages.mk uuid sid uid0 mt um ip br now)
                  (filter (fun c => String.eqb (ChatSessions.session_id c)
                                               sid)
                          (chat_sessions s))
         else []))%list.
Proof.
  rewrite save_message_eq.
  destruct (message_id_taken s uuid || negb (CHECK_message_type mt));
    [discriminate |].
  intros H. inversion H; subst s'; clear H.
  unfold history_join. simpl. rewrite flat_map_app. simpl.
  rewrite app_nil_r, join_ignores_last_activity. f_equal.
  apply flat_map_ext. intros m.
  destruct (String.eqb (Messages.user_id m) uid); [| reflexivity].
  apply join_ignores_last_activity.
Qed.



(** X9. A message stored under a session id no session carries is in the
    ledger and is counted, yet no history shows it: every user's history,
    for every limit, is what it was before the call. *)
Theorem unregistered_session_message_hidden (s s' : db)
    (sid uid mt : string) (um ip : option string) (br uuid : string)
    (now : datetime) :
  session_id_taken s sid = false ->
  save_message s sid uid mt um ip br uuid now = (s', Ok tt) ->
  (forall u limit, get_chat_history s' u limit = get_chat_history s u limit)
  /\ In (Messages.mk uuid sid uid mt um ip br now) (messages s')
  /\ select_analytics s' uid
     = option_map (bump mt now) (select_analytics s uid).
Proof.
  intros Hsid Hsave. split; [| split].
  - intros u limit. unfold get_chat_history, history_rows.
    rewrite (history_join_append _ _ _ _ _ _ _ _ _ _ u Hsave).
    replace (filter _ (chat_sessions s)) with (@nil ChatSessions.row).
    + simpl. destruct (String.eqb uid u); rewrite app_nil_r; reflexivity.
    + symmetry. unfold session_id_taken in Hsid.
      induction (chat_sessions s) as [|c cs IH]; simpl in *; [reflexivity |].
      apply orb_false_iff in Hsid. destruct Hsid as [Hc Hcs].
      rewrite Hc. apply IH. exact Hcs.
  - rewrite save_message_eq in Hsave.
    destruct (message_id_taken s uuid || negb (CHECK_message_type mt));
      [discriminate |].
    inversion Hsave; subst s'. simpl. apply in_or_app. right. left.
    reflexivity.
  - rewrite save_message_eq in Hsave.
    destruct (message_id_taken s uuid || negb (CHECK_message_type mt));
      [discriminate |].
    inversion Hsave; subst s'. unfold select_analytics. simpl.
    rewrite find_record_query.
    destruct (find _ (user_analytics s)) as [a|] eqn:F; [| reflexivity].
    simpl. apply find_some in F. destruct F as [_ F].
    unfold record_query. rewrite F. reflexivity.
Qed.


(** ** Logging in and out *)

Lemma select_user_found s u user :
  select_user s u = Some user -> In user (users s) /\ Users.username user = u.
Proof.
  unfold select_user. intros H. apply find_some in H.
  destruct H as [Hin H]. apply String.eqb_eq in H. auto.
Qed.

Lemma update_last_login_eq s uid now :
  update_last_login s uid now
  = mkdb (map (set_last_login uid now) (users s)) (chat_sessions s)
         (messages s) (user_analytics s).
Proof. reflexivity. Qed.

Lemma authenticate_user_some s s' username password now info :
  authenticate_user checkpw s username password now = (s', Some info) ->
  exists user,
    select_user s username = Some user
    /\ Users.is_active user = true
    /\ checkpw password (Users.password_hash user) = true
    /\ info = user_info user
    /\ s' = update_last_login s (Users.user_id user) now.
Proof.
  unfold authenticate_user.
  destruct (select_user s username) as [user|] eqn:Hsel; [| discriminate].
  destruct (Users.is_active user) eqn:Hact; [| discriminate].
  destruct (checkpw password (Users.password_hash user)) eqn:Hpw;
    [| discriminate].
  cbn [andb]. intros H. inversion H; subst s' info; clear H.
  exists user. auto.
Qed.

(** X11. [authenticate_user] returns a user's info only for an active
    account whose stored hash bcrypt accepts for the password; the call then
    sets that user's [last_login] to the time of the call and changes
    nothing else in the store. *)
Theorem authenticate_user_success (s s' : db) (username password : string)
    (now : datetime) (info : dict) :
  authenticate_user checkpw s username password now = (s', Some info) ->
  exists user,
    select_user s username = Some user
    /\ Users.is_active user = true
    /\ checkpw password (Users.password_hash user) = true
    /\ info = user_info user
    /\ select_user s' username = Some (with_last_login now user)
    /\ map forget_login (users s') = map forget_login (users s)
    /\ chat_sessions s' = chat_sessions s
    /\ messages s' = messages s
    /\ user_analytics s' = user_analytics s.
Proof.
  intros Hauth. apply authenticate_user_some in Hauth.
  destruct Hauth as [user [Hsel [Hact [Hpw [Hinfo Hs']]]]].
  rewrite update_last_login_eq in Hs'. subst s'.
  exists user. split; [exact Hsel |]. split; [exact Hact |].
  split; [exact Hpw |]. split; [exact Hinfo |].
  split; [| split; [| repeat split]].
  - unfold select_user in *. cbn [users].
    rewrite find_set_last_login, Hsel.
    cbn [option_map]. unfold set_last_login, with_last_login.
    rewrite String.eqb_refl. reflexivity.
  - cbn [users]. rewrite map_map. apply map_ext. intros u.
    apply forget_set_last_login.
Qed.

(** X12. A login that succeeds was for an active user with the right
    password; afterwards the session state is authenticated, holds that
    user's info and the new session id, the session id was not in use
    before and its row, owned by that user, is in the store; the greeting
    names the user.  From then on [require_auth] lets the caller through,
    and [require_role] lets it through for exactly the role of the user's
    row and stops it for every other role. *)
Theorem login_user_success (s s' : db) (ss ss' : session_state)
    (username password uuid : string) (now : datetime) (msg : string) :
  login_user checkpw s ss username password uuid now
  = (s', ss', Ok (true, msg)) ->
  exists user,
    select_user s username = Some user
    /\ Users.is_active user = true
    /\ checkpw password (Users.password_hash user) = true
    /\ is_authenticated ss' = true
    /\ get_current_user ss' = Some (user_info user)
    /\ get_current_session_id ss' = Some uuid
    /\ session_id_taken s uuid = false
    /\ In (ChatSessions.mk uuid (Users.user_id user) now now)
          (chat_sessions s')
    /\ msg = "Welcome back, " ++ Users.full_name user ++ "!"
    /\ require_auth ss' = Proceed
    /\ forall r,
         (Users.role user = r -> require_role ss' r = Proceed)
         /\ (Users.role user <> r ->
             require_role ss' r
             = Stop ("🚫 This feature is only available for " ++ r ++ "s")).
Proof.
  unfold login_user.
  destruct (String.eqb username "" || String.eqb password "");
    [discriminate |].
  destruct (authenticate_user checkpw s username password now)
    as [s1 [info|]] eqn:Hauth; [| discriminate].
  apply authenticate_user_some in Hauth.
  destruct Hauth as [user [Hsel [Hact [Hpw [Hinfo Hs1]]]]].
  subst info s1. rewrite create_chat_session_eq.
  unfold session_id_taken. rewrite update_last_login_eq. cbn [chat_sessions].
  destruct (existsb _ (chat_sessions s)) eqn:Htaken; [discriminate |].
  intros H. inversion H; subst s' ss' msg; clear H.
  exists user. split; [exact Hsel |]. split; [exact Hact |].
  split; [exact Hpw |]. split; [reflexivity |]. split; [reflexivity |].
  split; [reflexivity |]. split; [reflexivity |].
  split; [cbn [chat_sessions]; apply in_or_app; right; left; reflexivity |].
  split; [reflexivity |]. split; [reflexivity |].
  intros r. unfold require_role, require_auth. simpl. split.
  - intros H. rewrite H, String.eqb_refl. reflexivity.
  - intros H. apply String.eqb_neq in H. rewrite H. reflexivity.
Qed.

(** X13. When the generated session id is already in use, [login_user] of
    a user with the right password ends in the IntegrityError of
    [create_chat_session], after the session state has been marked
    authenticated: it holds the user's info and still the session id it had
    before, and no session row was added. *)
Theorem login_user_session_id_collision (s : db) (ss : session_state)
    (username password uuid : string) (now : datetime) (user : Users.row) :
  username <> "" -> password <> "" ->
  select_user s username = Some user ->
  Users.is_active user = true ->
  checkpw password (Users.password_hash user) = true ->
  session_id_taken s uuid = true ->
  exists s',
    login_user checkpw s ss username password uuid now
    = (s', mkss true (Some (user_info user)) (current_session_id ss),
       Raise IntegrityError)
    /\ chat_sessions s' = chat_sessions s.
Proof.
  intros Hu Hp Hsel Hact Hpw Htaken. unfold login_user.
  apply String.eqb_neq in Hu, Hp. rewrite Hu, Hp. simpl.
  unfold authenticate_user. rewrite Hsel, Hact, Hpw. simpl.
  rewrite create_chat_session_eq.
  unfold session_id_taken in *. simpl. rewrite Htaken.
  eexists. split; reflexivity.
Qed.

(** X14. After [logout_user] nobody is authenticated, whatever the state
    was: there is no current user and no current session id, [require_auth]
    and [require_role] stop for every role, every key starting with [chat_]
    is gone and the other keys are kept with their values, in order. *)
Theorem logout_user_closes {V} (ss : session_state)
    (others : list (string * V)) :
  let ss' := fst (logout_user ss others) in
  let others' := snd (logout_user ss others) in
  is_authenticated ss' = false
  /\ get_current_user ss' = None
  /\ get_current_session_id ss' = None
  /\ (forall r, require_role ss' r = require_auth ss'
                /\ require_auth ss' <> Proceed)
  /\ (forall kv, In kv others'
                 <-> In kv others /\ String.prefix "chat_" (fst kv) = false)
  /\ others' = filter (fun kv => negb (String.prefix "chat_" (fst kv)))
                      others.
Proof.
  simpl. split; [reflexivity |]. split; [reflexivity |].
  split; [reflexivity |].
  split; [intros r; split; [reflexivity | discriminate] |].
  split; [| reflexivity].
  intros kv. rewrite filter_In, negb_true_iff. reflexivity.
Qed.

(** ** Registration, once more *)


(** X16. In a reachable store a user who has just registered starts at
    zero: [get_user_analytics] for the new user id reports no queries and
    no last query date. *)
Theorem new_user_starts_at_zero (s s' : db)
    (username email password confirm_password role full_name : string)
    (department : option string) (uuid salt : string) (now : datetime)
    (msg : string) :
  reachable hashpw checkpw s ->
  register_user hashpw s username email password confirm_password role
                full_name department uuid salt now = (s', (true, msg)) ->
  user_id_taken s' uuid = true
  /\ get_user_analytics s' uuid
     = [ ("total_queries", VInt 0); ("text_queries", VInt 0);
         ("image_queries", VInt 0); ("last_query_date", VNone) ].
Proof.
  intros Hr Hreg. unfold register_user in Hreg.
  destruct (validate username email password confirm_password full_name);
    [discriminate |].
  rewrite create_user_eq in Hreg.
  destruct (user_id_taken s uuid) eqn:Hid; [discriminate |].
  destruct (username_taken s username); [discriminate |].
  destruct (email_taken s email); [discriminate |].
  destruct (CHECK_role role); [| discriminate].
  simpl in Hreg. inversion Hreg; subst s'; clear Hreg. split.
  - unfold user_id_taken. simpl. rewrite existsb_app. simpl.
    rewrite String.eqb_refl. apply orb_true_iff. right. reflexivity.
  - unfold get_user_analytics, select_analytics. simpl.
    rewrite find_app_none.
    + simpl. rewrite String.eqb_refl. reflexivity.
    + destruct (find _ (user_analytics s)) as [a|] eqn:F; [| reflexivity].
      exfalso. apply find_some in F. destruct F as [Hin Ha].
      apply String.eqb_eq in Ha.
      apply (in_map UserAnalytics.user_id) in Hin.
      rewrite (counters_match_users_reachable s Hr) in Hin.
      apply in_map_iff in Hin. destruct Hin as [u [Hu Hin]].
      assert (user_id_taken s uuid = true) as Ht.
      { unfold user_id_taken. apply existsb_exists. exists u.
        split; [exact Hin |]. apply String.eqb_eq. congruence. }
      congruence.
Qed.

(** ** The callers in [app.py] *)

(** X17. [process_text_query] records the exchange whether or not the
    generation succeeded: for a logged-in user of a reachable store with a
    session id, and a fresh message id, it ends without error, adds the user
    entry and the assistant entry to the chat history, appends one text
    message to the ledger and raises the user's total and text counters by
    1, the image counter staying as it was. *)
Theorem process_text_query_records (s : db) (ss : session_state)
    (chat_history : list dict) (query response : string) (success : bool)
    (uuid : string) (now : datetime) (sid : string) (info : dict) :
  reachable hashpw checkpw s ->
  get_current_session_id ss = Some sid ->
  sid <> "" ->
  get_current_user ss = Some info ->
  user_id_taken s (dict_str info "user_id") = true ->
  message_id_taken s uuid = false ->
  let uid := dict_str info "user_id" in
  exists s',
    process_text_query s ss chat_history query response success uuid now
    = (s',
       (chat_history ++ [chat_entry "user" query;
                         chat_entry "assistant" response])%list,
       None)
    /\ messages s'
       = (messages s ++ [Messages.mk uuid sid uid "text" (Some query) None
                                     response now])%list
    /\ dict_int (get_user_analytics s' uid) "total_queries"
       = dict_int (get_user_analytics s uid) "total_queries" + 1
    /\ dict_int (get_user_analytics s' uid) "text_queries"
       = dict_int (get_user_analytics s uid) "text_queries" + 1
    /\ dict_int (get_user_analytics s' uid) "image_queries"
       = dict_int (get_user_analytics s uid) "image_queries".
Proof.
  intros Hr Hsid Hne Hinfo Huser Hfresh uid.
  unfold process_text_query. rewrite Hsid, Hinfo.
  apply String.eqb_neq in Hne. rewrite Hne.
  rewrite save_message_eq, Hfresh. cbn [CHECK_message_type negb orb].
  replace (String.eqb "text" "text" || String.eqb "text" "image")
    with true by reflexivity.
  cbn [negb]. eexists. split; [reflexivity |]. split; [reflexivity |].
  pose proof (reachable_users_have_counters hashpw checkpw s Hr uid Huser)
    as Hsome.
  unfold get_user_analytics, select_analytics in *. cbn [user_analytics].
  rewrite find_record_query.
  destruct (find _ (user_analytics s)) as [a|] eqn:F; [| congruence].
  apply find_some in F. destruct F as [_ F].
  cbn [option_map]. unfold record_query. fold uid. rewrite F.
  unfold dict_int. simpl. repeat split; lia.
Qed.

Lemma consistent_reachable (s : db) :
  reachable hashpw checkpw s -> Forall consistent (user_analytics s).
Proof.
  revert s. apply reachable_invariant.
  - constructor.
  - exact consistent_change.
Qed.

Lemma platform_entry_counts r :
  dict_int (platform_entry r) "text_queries"
  = match snd r with Some a => UserAnalytics.text_queries a | None => 0 end
  /\ dict_int (platform_entry r) "image_queries"
     = match snd r with Some a => UserAnalytics.image_queries a | None => 0 end.
Proof.
  destruct r as [u [a|]]; unfold dict_int; simpl; [| split; reflexivity].
  unfold py_or. simpl.
  destruct (Z.eqb_spec (UserAnalytics.text_queries a) 0) as [E1|E1];
    destruct (Z.eqb_spec (UserAnalytics.image_queries a) 0) as [E2|E2];
    simpl; split; congruence.
Qed.

Lemma platform_entry_consistent (s : db) r :
  Forall consistent (user_analytics s) ->
  In r (platform_rows s) ->
  dict_int (platform_entry r) "total_queries"
  = dict_int (platform_entry r) "text_queries"
    + dict_int (platform_entry r) "image_queries".
Proof.
  intros Hc Hin.
  apply (Permutation_in _ (order_by_desc_perm null_ltb ua_total _)) in Hin.
  destruct (platform_entry_counts r) as [Ht Hi].
  rewrite platform_entry_total, Ht, Hi.
  destruct r as [u [a|]]; unfold ua_total; simpl; [| reflexivity].
  unfold platform_join in Hin. apply in_flat_map in Hin.
  destruct Hin as [u' [_ Hin]]. apply left_join_counters in Hin.
  rewrite Forall_forall in Hc. apply (Hc a Hin).
Qed.

Lemma sum_of_consistent (l : list dict) :
  Forall (fun d => dict_int d "total_queries"
                   = dict_int d "text_queries"
                     + dict_int d "image_queries") l ->
  sum_of "total_queries" l
  = sum_of "text_queries" l + sum_of "image_queries" l.
Proof.
  induction 1 as [|d l Hd _ IH]; [reflexivity |].
  unfold sum_of in *. simpl. lia.
Qed.

(** X18. The summary of the analytics dashboard adds up: in a reachable
    store it is missing exactly when there is no user, and otherwise its
    user count is the number of users and its total of queries is the sum
    of its text and image queries. *)
Theorem summary_metrics_add_up (s : db) :
  reachable hashpw checkpw s ->
  match summary_metrics s with
  | None => users s = []
  | Some (n, total, text, image) =>
      n = Z.of_nat (List.length (users s))
      /\ users s <> []
      /\ total = text + image
  end.
Proof.
  intros Hr.
  assert (Hlen : List.length (get_all_users_analytics s)
                 = List.length (users s)).
  { unfold get_all_users_analytics. rewrite length_map.
    rewrite <- (length_map fst). apply Permutation_length.
    apply platform_rows_users_reachable. exact Hr. }
  assert (Hsum : sum_of "total_queries" (get_all_users_analytics s)
                 = sum_of "text_queries" (get_all_users_analytics s)
                   + sum_of "image_queries" (get_all_users_analytics s)).
  { apply sum_of_consistent. unfold get_all_users_analytics.
    apply Forall_map. apply Forall_forall. intros r Hin.
    apply (platform_entry_consistent s); [| exact Hin].
    apply consistent_reachable. exact Hr. }
  unfold summary_metrics.
  destruct (get_all_users_analytics s) as [|d l] eqn:E.
  - destruct (users s); [reflexivity | discriminate].
  - split; [rewrite <- Hlen; reflexivity |]. split; [| exact Hsum].
    destruct (users s); [discriminate | discriminate].
Qed.

End StoreInvariants.

Lemma order_by_desc_of_sorted {A K} (ltb : K -> K -> bool) (key : A -> K)
    (l : list A) :
  StronglySorted (desc ltb key) l -> order_by_desc ltb key l = l.
Proof.
  induction 1 as [|a l _ IH Hall]; simpl; [reflexivity |].
  rewrite IH. destruct l as [|b l']; simpl; [reflexivity |].
  inversion Hall as [|? ? Hab _]; subst. unfold desc in Hab.
  rewrite Hab. reflexivity.
Qed.

Lemma snapshot_total_desc (s : db) :
  counters_nonneg s ->
  StronglySorted total_desc (get_all_users_analytics s).
Proof.
  intros Hnn. unfold get_all_users_analytics.
  apply StronglySorted_map with (R := desc null_ltb ua_total);
    [| apply platform_rows_sorted].
  intros a b Ha Hb Hab. unfold total_desc.
  rewrite !platform_entry_total.
  pose proof (platform_rows_nonneg s a Hnn Ha) as Na.
  pose proof (platform_rows_nonneg s b Hnn Hb) as Nb.
  unfold desc in Hab.
  destruct (ua_total a) as [x|], (ua_total b) as [y|];
    simpl in Hab; try congruence; lia.
Qed.

(** X19. The dashboard's ranking is the head of the snapshot: when no
    counter is negative, sorting the snapshot again by total queries,
    largest first, changes nothing, so the five most active users shown are
    the first five entries of [get_all_users_analytics]. *)
Theorem top_users_are_first_five (s : db) :
  counters_nonneg s ->
  top_users s = firstn 5 (get_all_users_analytics s).
Proof.
  intros Hnn. unfold top_users. f_equal.
  apply order_by_desc_of_sorted.
  pose proof (snapshot_total_desc s Hnn) as Hs.
  induction Hs as [|d l _ IH Hall]; constructor; [exact IH |].
  eapply Forall_impl; [| exact Hall].
  intros b Hb. unfold desc, total_desc in *. apply Z.ltb_ge. exact Hb.
Qed.

(** X20. Users are isolated from each other's appends: a successful
    [save_message] for one user id leaves the history (for every limit) and
    the reported counters of every other user id as they were. *)
Theorem save_message_isolated (s s' : db) (sid uid mt : string)
    (um ip : option string) (br uuid : string) (now : datetime)
    (other : string) :
  other <> uid ->
  save_message s sid uid mt um ip br uuid now = (s', Ok tt) ->
  (forall limit,
     get_chat_history s' other limit = get_chat_history s other limit)
  /\ get_user_analytics s' other = get_user_analytics s other.
Proof.
  intros Hne Hsave. split.
  - intros limit. unfold get_chat_history, history_rows.
    rewrite (history_join_append _ _ _ _ _ _ _ _ _ _ other Hsave).
    assert (String.eqb uid other = false) as E
      by (apply String.eqb_neq; congruence).
    rewrite E, app_nil_r. reflexivity.
  - rewrite save_message_eq in Hsave.
    destruct (message_id_taken s uuid || negb (CHECK_message_type mt));
      [discriminate |].
    inversion Hsave; subst s'; clear Hsave.
    unfold get_user_analytics, select_analytics. cbn [user_analytics].
    rewrite find_record_query.
    destruct (find _ (user_analytics s)) as [a|] eqn:F; [| reflexivity].
    apply find_some in F. destruct F as [_ F]. apply String.eqb_eq in F.
    cbn [option_map]. unfold record_query.
    assert (String.eqb (UserAnalytics.user_id a) uid = false) as E
      by (apply String.eqb_neq; congruence).
    rewrite E. reflexivity.
Qed.

(** ** The further properties at concrete stores *)

Lemma reachable_unique_keys_witness :
  reachable toy_hashpw toy_checkpw scenario_db
  /\ select_user scenario_db "alice" = Some alice_row.
Proof.
  split; [exact scenario_db_reachable |].
  apply (proj2 (reachable_unique_keys toy_hashpw toy_checkpw scenario_db
                  scenario_db_reachable) alice_row).
  left. reflexivity.
Defined.

Lemma reachable_one_counters_row_per_user_witness :
  reachable toy_hashpw toy_checkpw scenario_db
  /\ counters_match_users scenario_db.
Proof.
  split; [exact scenario_db_reachable |].
  apply (reachable_one_counters_row_per_user toy_hashpw toy_checkpw
           scenario_db scenario_db_reachable).
Defined.

Lemma reachable_snapshot_lists_every_user_witness :
  reachable toy_hashpw toy_checkpw scenario_db
  /\ List.length (get_all_users_analytics scenario_db)
     = List.length (users scenario_db).
Proof.
  split; [exact scenario_db_reachable |].
  apply (reachable_snapshot_lists_every_user toy_hashpw toy_checkpw
           scenario_db scenario_db_reachable).
Defined.

Lemma unknown_user_has_zero_counters_witness :
  reachable toy_hashpw toy_checkpw scenario_db
  /\ user_id_taken scenario_db "ghost" = false
  /\ get_user_analytics scenario_db "ghost"
     = [ ("total_queries", VInt 0); ("text_queries", VInt 0);
         ("image_queries", VInt 0); ("last_query_date", VNone) ].
Proof.
  split; [exact scenario_db_reachable |]. split; [reflexivity |].
  apply (unknown_user_has_zero_counters toy_hashpw toy_checkpw scenario_db
           "ghost" scenario_db_reachable).
  reflexivity.
Defined.

Lemma counters_follow_ledger_witness :
  select_analytics session_db "u-1" <> None
  /\ in_step session_db
             (run toy_hashpw toy_checkpw (skipn 3 scenario) session_db)
             "u-1".
Proof.
  assert (H : select_analytics session_db "u-1" <> None)
    by (intros H; discriminate H).
  split; [exact H |].
  apply (counters_follow_ledger toy_hashpw toy_checkpw (skipn 3 scenario)
           session_db "u-1" H).
Defined.


Lemma unregistered_session_message_hidden_witness :
  session_id_taken session_db "S9" = false
  /\ get_chat_history
       (fst (save_message session_db "S9" "u-1" "text" (Some "lost") None
                          "answer" "m-1" 103))
       "u-1" 50
     = get_chat_history session_db "u-1" 50.
Proof.
  split; [reflexivity |].
  apply (unregistered_session_message_hidden session_db _ "S9" "u-1" "text"
           (Some "lost") None "answer" "m-1" 103);
    reflexivity.
Defined.


Lemma authenticate_user_success_witness :
  exists user,
    select_user scenario_db "alice" = Some user
    /\ Users.is_active user = true
    /\ toy_checkpw "password1" (Users.password_hash user) = true.
Proof.
  destruct (authenticate_user_success toy_checkpw scenario_db
              (fst (authenticate_user toy_checkpw scenario_db "alice"
                                      "password1" 200))
              "alice" "password1" 200 (user_info alice_row) eq_refl)
    as [user [H1 [H2 [H3 _]]]].
  exists user. auto.
Defined.

Lemma login_user_success_witness :
  exists user,
    select_user scenario_db "alice" = Some user
    /\ Users.is_active user = true.
Proof.
  destruct (login_user_success toy_checkpw scenario_db
              (fst (fst (login_user toy_checkpw scenario_db
                                    (mkss false None None) "alice"
                                    "password1" "S2" 200)))
              (mkss false None None)
              (mkss true (Some (user_info alice_row)) (Some "S2"))
              "alice" "password1" "S2" 200 "Welcome back, Alice A!" eq_refl)
    as [user [H1 [H2 _]]].
  exists user. auto.
Defined.

Lemma login_user_session_id_collision_witness :
  session_id_taken scenario_db "S1" = true
  /\ exists s',
       login_user toy_checkpw scenario_db (mkss false None None) "alice"
                  "password1" "S1" 200
       = (s', mkss true (Some (user_info alice_row)) None,
          Raise IntegrityError)
       /\ chat_sessions s' = chat_sessions scenario_db.
Proof.
  split; [reflexivity |].
  apply (login_user_session_id_collision toy_checkpw scenario_db
           (mkss false None None) "alice" "password1" "S1" 200 alice_row);
    try reflexivity; discriminate.
Defined.

Lemma new_user_starts_at_zero_witness :
  reachable toy_hashpw toy_checkpw scenario_db
  /\ get_user_analytics
       (fst (register_user toy_hashpw scenario_db "bob" "bob@x.edu"
                           "password2" "password2" "faculty" "Bob B" None
                           "u-2" "salt" 200))
       "u-2"
     = [ ("total_queries", VInt 0); ("text_queries", VInt 0);
         ("image_queries", VInt 0); ("last_query_date", VNone) ].
Proof.
  split; [exact scenario_db_reachable |].
  apply (new_user_starts_at_zero toy_hashpw toy_checkpw scenario_db _ "bob"
           "bob@x.edu" "password2" "password2" "faculty" "Bob B" None "u-2"
           "salt" 200 "Registration successful! Please log in."
           scenario_db_reachable).
  reflexivity.
Defined.

Lemma process_text_query_records_witness :
  reachable toy_hashpw toy_checkpw scenario_db
  /\ message_id_taken scenario_db "m-3" = false
  /\ exists s',
       process_text_query scenario_db alice_session [] "and Y?"
                          "I'm experiencing technical difficulties." false
                          "m-3" 105
       = (s',
          [chat_entry "user" "and Y?";
           chat_entry "assistant" "I'm experiencing technical difficulties."],
          None)
       /\ dict_int (get_user_analytics s' "u-1") "total_queries" = 3.
Proof.
  split; [exact scenario_db_reachable |]. split; [reflexivity |].
  destruct (process_text_query_records toy_hashpw toy_checkpw scenario_db
              alice_session [] "and Y?"
              "I'm experiencing technical difficulties." false "m-3" 105
              "S1" (user_info alice_row) scenario_db_reachable eq_refl)
    as [s' [H1 [_ [H2 _]]]];
    try reflexivity; try discriminate.
  exists s'. split; [exact H1 | exact H2].
Defined.

Lemma summary_metrics_add_up_witness :
  reachable toy_hashpw toy_checkpw scenario_db
  /\ summary_metrics scenario_db = Some (1, 2, 1, 1)
  /\ (1 = Z.of_nat (List.length (users scenario_db))
      /\ users scenario_db <> []
      /\ 2 = 1 + 1).
Proof.
  split; [exact scenario_db_reachable |]. split; [reflexivity |].
  exact (summary_metrics_add_up toy_hashpw toy_checkpw scenario_db
           scenario_db_reachable).
Defined.

Lemma top_users_are_first_five_witness :
  counters_nonneg mixed_db
  /\ top_users mixed_db = firstn 5 (get_all_users_analytics mixed_db).
Proof.
  assert (H : counters_nonneg mixed_db).
  { unfold counters_nonneg. simpl.
    repeat (constructor; [simpl; lia |]). constructor. }
  split; [exact H |].
  apply (top_users_are_first_five mixed_db H).
Defined.

Lemma save_message_isolated_witness :
  "u-2" <> "u-1"
  /\ get_user_analytics
       (fst (save_message tie_db "S1" "u-1" "text" (Some "hi") None "hello"
                          "m-1" 103))
       "u-2"
     = get_user_analytics tie_db "u-2".
Proof.
  assert (H : "u-2" <> "u-1") by discriminate.
  split; [exact H |].
  apply (save_message_isolated tie_db _ "S1" "u-1" "text" (Some "hi") None
           "hello" "m-1" 103 "u-2" H).
  reflexivity.
Defined.


Example logout_of_alice :
  logout_user alice_session
              [("chat_history", 2%nat); ("show_welcome", 0%nat);
               ("active_tab", 1%nat); ("chat_", 3%nat)]
  = (mkss false None None, [("show_welcome", 0%nat); ("active_tab", 1%nat)])
  /\ require_role alice_session "student" = Proceed
  /\ require_role alice_session "faculty"
     = Stop "🚫 This feature is only available for facultys"
  /\ require_role (mkss true None None) "faculty" = Proceed.
Proof. repeat split. Qed.
